(** * CRAI photobooth kiosk: generation adapter, capture engine, admin page

    A shallow embedding of [src/lib/gemini.ts], [src/pages/CameraPage.tsx]
    and [src/pages/AdminPage.tsx], and the properties of the kiosk
    specification that concern them.

    Conventions of the embedding:
    - an [async] function is a computation in a small monad that records
      the observable effects in order (network calls, console output,
      callbacks, alerts) and ends normally or by a thrown value;
    - a value that may be [undefined] / [null] is an [option];
    - JavaScript truthiness of strings and numbers is written out;
    - the arithmetic of [capture] is written against an interface with
      two instances: binary64 floats, which is what runs, and exact
      rationals, in which the geometry of the crop is stated;
    - React state is an explicit record; a closure created by a render
      keeps the values of that render. *)

From Stdlib Require Import String Ascii List ZArith QArith Lqa Lia Bool.
From Stdlib Require Import Floats Uint63.
From stdpp Require Import gmap strings.

Local Open Scope string_scope.
Local Open Scope list_scope.

(** ** JavaScript values shared by the three files *)

(** [!!s] for a string that may be undefined: [undefined] and [""] are falsy. *)
Definition truthy_string (s : string) : bool :=
  negb (String.eqb s "").

Definition truthy_opt_string (o : option string) : bool :=
  match o with
  | Some s => truthy_string s
  | None => false
  end.

(** [s.split(",")]: never empty, one more piece than there are commas. *)
Fixpoint split_comma (s : string) : list string :=
  match s with
  | EmptyString => [EmptyString]
  | String c rest =>
      if Ascii.eqb c ","%char then EmptyString :: split_comma rest
      else match split_comma rest with
           | [] => [String c EmptyString]
           | piece :: pieces => String c piece :: pieces
           end
  end.

(** A string without a comma, such as base64 text. *)
Fixpoint comma_free (s : string) : bool :=
  match s with
  | EmptyString => true
  | String c rest => negb (Ascii.eqb c ","%char) && comma_free rest
  end.

(** ** src/lib/gemini.ts *)

Module Gemini.

(** The parts of the SDK's request and response objects that the adapter
    reads or writes.  Every property of a response may be missing. *)
Record Blob := { data : option string; mimeType : option string }.
Record Part := { inlineData : option Blob; text : option string }.
Record Content := { parts : option (list Part) }.
Record Candidate := { content : option Content }.
Record GenerateContentResponse := { candidates : option (list Candidate) }.

(** The [aspectRatio] parameter has type ["9:16" | "16:9"]. *)
Inductive AspectRatio := Ratio_9_16 | Ratio_16_9.

Definition aspect_string (a : AspectRatio) : string :=
  match a with
  | Ratio_9_16 => "9:16"
  | Ratio_16_9 => "16:9"
  end.

Record GenerateContentParameters := {
  model : string;
  contents : Content;
  config_imageConfig_aspectRatio : string
}.

(** Values that can be thrown: an [Error] built by the adapter, a
    [TypeError] of the runtime (a property read on [undefined], or
    iterating [undefined]), and whatever the SDK call rejected with. *)
Inductive thrown :=
| Error (message : string)
| TypeError
| Rejection (reason : string).

(** What the service does with one call. *)
Inductive sdk_result :=
| Resolved (response : GenerateContentResponse)
| Rejected (reason : string).

(** Observable effects, in program order. *)
Inductive effect :=
| GenerateContent (apiKey : string) (request : GenerateContentParameters)
| ConsoleError (label : string) (error : thrown).

Inductive completion (A : Type) :=
| Normal (value : A)
| Abrupt (error : thrown).
Arguments Normal {A} value.
Arguments Abrupt {A} error.

Definition Js (A : Type) : Type := (list effect * completion A)%type.

Definition ret {A} (v : A) : Js A := ([], Normal v).

Definition throw {A} (e : thrown) : Js A := ([], Abrupt e).

Definition bind {A B} (m : Js A) (k : A -> Js B) : Js B :=
  match m with
  | (t, Normal v) => let '(t', r) := k v in (t ++ t', r)
  | (t, Abrupt e) => (t, Abrupt e)
  end.

Definition perform (e : effect) : Js unit := ([e], Normal tt).

(** [try { m } catch (error) { handler error }] *)
Definition try_catch {A} (m : Js A) (handler : thrown -> Js A) : Js A :=
  match m with
  | (t, Abrupt e) => let '(t', r) := handler e in (t ++ t', r)
  | (t, Normal v) => (t, Normal v)
  end.

#[global] Instance Js_ret : MRet Js := @ret.
#[global] Instance Js_bind : MBind Js := fun A B k m => bind m k.

(** [await ai.models.generateContent(request)] with the client built from
    [apiKey]. *)
Definition await_generateContent
    (sdk : string -> GenerateContentParameters -> sdk_result)
    (apiKey : string) (request : GenerateContentParameters)
  : Js GenerateContentResponse :=
  ([GenerateContent apiKey request],
   match sdk apiKey request with
   | Resolved r => Normal r
   | Rejected x => Abrupt (Rejection x)
   end).

Definition missing_key_message : string :=
  "Missing Gemini API key. Set VITE_GEMINI_API_KEY in Vercel Environment Variables and redeploy.".

Definition no_image_message : string :=
  "No image data returned from Gemini".

Definition png_data_url_prefix : string := "data:image/png;base64,".

(** The template literal of the text part. *)
Definition prompt_text (prompt : string) (aspectRatio : AspectRatio) : string :=
  prompt +:+ ". High resolution, " +:+ aspect_string aspectRatio +:+
  " aspect ratio, cinematic lighting, photorealistic, maintaining person's facial features and identity. No text, no watermark.".

(** [part.inlineData?.data], undefined when either property is missing. *)
Definition part_image_data (p : Part) : option string :=
  match inlineData p with
  | Some b => data b
  | None => None
  end.

(** The [for (const part of ...)] loop with its early [return]: the data
    of the first part whose [inlineData?.data] is truthy. *)
Fixpoint first_inline_data (ps : list Part) : option string :=
  match ps with
  | [] => None
  | p :: rest =>
      if truthy_opt_string (part_image_data p)
      then part_image_data p
      else first_inline_data rest
  end.

Definition build_request (base64Source prompt : string)
    (aspectRatio : AspectRatio) : GenerateContentParameters :=
  {| model := "gemini-2.5-flash-image";
     contents :=
       {| parts := Some
            [ {| inlineData :=
                   Some {| data := nth_error (split_comma base64Source) 1;
                           mimeType := Some "image/png" |};
                 text := None |};
              {| inlineData := None;
                 text := Some (prompt_text prompt aspectRatio) |} ] |};
     config_imageConfig_aspectRatio := aspect_string aspectRatio |}.

(** [generateAIImage].  [VITE_GEMINI_API_KEY] is the value of
    [import.meta.env.VITE_GEMINI_API_KEY]; [sdk] is the behaviour of the
    service. *)
Definition generateAIImage
    (VITE_GEMINI_API_KEY : option string)
    (sdk : string -> GenerateContentParameters -> sdk_result)
    (base64Source prompt : string) (aspectRatio : AspectRatio) : Js string :=
  try_catch
    (match VITE_GEMINI_API_KEY with
     | Some apiKey =>
         if negb (truthy_string apiKey) then throw (Error missing_key_message)
         else
           response ← await_generateContent sdk apiKey
                         (build_request base64Source prompt aspectRatio);
           match candidates response with
           | Some (first :: _) =>
               match content first with
               | None => throw TypeError
               | Some c =>
                   match parts c with
                   | None => throw TypeError
                   | Some ps =>
                       match first_inline_data ps with
                       | Some d => ret (png_data_url_prefix +:+ d)
                       | None => throw (Error no_image_message)
                       end
                   end
               end
           | Some [] | None => throw (Error no_image_message)
           end
     | None => throw (Error missing_key_message)
     end)
    (fun error =>
       perform (ConsoleError "Gemini Generation Error:" error);;
       throw error).

(** Lines 40 to 49 alone, as a function of the response: what the body
    does once the key is there and the service answered (used to state
    lemmas about [generateAIImage]). *)
Definition after_response (response : GenerateContentResponse)
  : completion string :=
  match candidates response with
  | Some (first :: _) =>
      match content first with
      | None => Abrupt TypeError
      | Some c =>
          match parts c with
          | None => Abrupt TypeError
          | Some ps =>
              match first_inline_data ps with
              | Some d => Normal (png_data_url_prefix +:+ d)
              | None => Abrupt (Error no_image_message)
              end
          end
      end
  | _ => Abrupt (Error no_image_message)
  end.

Definition trace {A} (m : Js A) : list effect := fst m.
Definition outcome {A} (m : Js A) : completion A := snd m.

(** The network calls among the effects. *)
Definition network_calls (t : list effect) : list GenerateContentParameters :=
  flat_map (fun e => match e with
                     | GenerateContent _ r => [r]
                     | ConsoleError _ _ => []
                     end) t.

(** The mime types a request declares for the inline data it carries,
    and the inline data themselves. *)
Definition declared_mime_types (request : GenerateContentParameters)
  : list (option string) :=
  match parts (contents request) with
  | Some ps =>
      flat_map (fun p => match inlineData p with
                         | Some b => [mimeType b]
                         | None => []
                         end) ps
  | None => []
  end.

Definition transmitted_data (request : GenerateContentParameters)
  : list (option string) :=
  match parts (contents request) with
  | Some ps =>
      flat_map (fun p => match inlineData p with
                         | Some b => [data b]
                         | None => []
                         end) ps
  | None => []
  end.

End Gemini.

(** ** src/pages/CameraPage.tsx *)

Module Camera.

(** [orientation: 'portrait' | 'landscape'] of [PhotoboothSettings]. *)
Inductive Orientation := portrait | landscape.

Definition isPortrait (orientation : Orientation) : bool :=
  match orientation with
  | portrait => true
  | landscape => false
  end.

Definition targetWidth (orientation : Orientation) : Z :=
  if isPortrait orientation then 768 else 1344.

Definition targetHeight (orientation : Orientation) : Z :=
  if isPortrait orientation then 1344 else 768.

Definition aspectRatioClass (orientation : Orientation) : string :=
  if isPortrait orientation then "aspect-[9/16]" else "aspect-[16/9]".

Definition maxWidthClass (orientation : Orientation) : string :=
  if isPortrait orientation then "max-w-[420px]" else "max-w-[900px]".

(** The arithmetic [capture] does on JavaScript numbers.  The page is
    written against this interface so that it can be run with the
    browser's arithmetic and reasoned about with exact arithmetic. *)
Class Number (N : Type) := {
  num_of_Z : Z -> N;          (* an integer property read as a number *)
  num_div : N -> N -> N;      (* a / b *)
  num_mul : N -> N -> N;      (* a * b *)
  num_sub : N -> N -> N;      (* a - b *)
  num_gt : N -> N -> bool     (* a > b *)
}.

(** IEEE 754 binary64 with round-to-nearest: what the browser computes.
    Sizes in pixels are non-negative integers far below 2^63. *)
#[global] Instance binary64 : Number float := {|
  num_of_Z := fun z => PrimFloat.of_uint63 (Uint63.of_Z z);
  num_div := PrimFloat.div;
  num_mul := PrimFloat.mul;
  num_sub := PrimFloat.sub;
  num_gt := fun a b => PrimFloat.ltb b a
|}.

(** [a > b] on rationals. *)
Definition Qgtb (a b : Q) : bool := negb (Qle_bool a b).

(** Exact rational arithmetic: binary64 without rounding. *)
#[global] Instance exact : Number Q := {|
  num_of_Z := inject_Z;
  num_div := Qdiv;
  num_mul := Qmult;
  num_sub := Qminus;
  num_gt := Qgtb
|}.

(** The ratio of a width and a height in pixels, as a rational. *)
Definition ratio (w h : Z) : Q := (inject_Z w / inject_Z h)%Q.

(** A media stream handed out by [getUserMedia], named by a number. *)
Definition MediaStream := nat.

(** The video element: the intrinsic size of what it plays, and its
    [srcObject]. *)
Record HTMLVideoElement := {
  videoWidth : Z;
  videoHeight : Z;
  srcObject : option MediaStream
}.

(** The arguments of the nine-argument [ctx.drawImage]: a source rectangle
    of the video (numbers) and a destination rectangle of the canvas
    (pixels). *)
Record DrawImage (N : Type) := {
  sx : N; sy : N; sWidth : N; sHeight : N;
  dx : Z; dy : Z; dWidth : Z; dHeight : Z
}.
Arguments sx {N} _.
Arguments sy {N} _.
Arguments sWidth {N} _.
Arguments sHeight {N} _.
Arguments dx {N} _.
Arguments dy {N} _.
Arguments dWidth {N} _.
Arguments dHeight {N} _.

(** The canvas: its pixel size, whether [getContext('2d')] gives a
    context, and the last draw made on it. *)
Record HTMLCanvasElement (N : Type) := {
  width : Z;
  height : Z;
  has_2d_context : bool;
  drawn : option (DrawImage N)
}.
Arguments width {N} _.
Arguments height {N} _.
Arguments has_2d_context {N} _.
Arguments drawn {N} _.

(** Calls made to the props of the page. *)
Inductive callback :=
| onCapture (image : string)
| onGenerate
| onBack.

(** An armed [setInterval] timer of [startCountdown]: its handle and the
    orientation of the render whose [capture] its callback closes over. *)
Record Interval := {
  handle : nat;
  closure_orientation : Orientation
}.

(** One mounted [CameraPage] and the part of the browser it touches. *)
Record State (N : Type) := {
  orientation : Orientation;                (* prop *)
  capturedImage : option string;            (* prop *)
  stream : option MediaStream;              (* useState *)
  countdown : option Z;                     (* useState *)
  videoRef : option HTMLVideoElement;       (* videoRef.current *)
  canvasRef : option (HTMLCanvasElement N); (* canvasRef.current *)
  cleanup_stream : option MediaStream;
    (* [stream] as seen by the clean-up function of the effect in force:
       the value it had in the render that ran the effect *)
  intervals : list Interval;                (* armed timers *)
  next_handle : nat;
  live : list MediaStream;                  (* streams with running tracks *)
  calls : list callback                     (* calls to the props so far *)
}.
Arguments orientation {N} _.
Arguments capturedImage {N} _.
Arguments stream {N} _.
Arguments countdown {N} _.
Arguments videoRef {N} _.
Arguments canvasRef {N} _.
Arguments cleanup_stream {N} _.
Arguments intervals {N} _.
Arguments next_handle {N} _.
Arguments live {N} _.
Arguments calls {N} _.

(** What can happen to a mounted page. *)
Inductive event :=
| GetUserMediaResolves (m : MediaStream) (w h : Z)
| GetUserMediaRejects
| ClickShutter
| ClickBack
| Tick (h : nat)
| SetOrientation (o : Orientation)
| Unmount.

(** The controls the page can render. *)
Inductive control := BackButton | ShutterButton.

Section Capture.

Context {N : Type} {num : Number N}.

(** The source rectangle computed by [capture] (lines 53 to 67). *)
Definition source_rect (video : HTMLVideoElement) (orientation : Orientation)
  : N * N * N * N :=
  let videoRatio :=
    num_div (num_of_Z (videoWidth video)) (num_of_Z (videoHeight video)) in
  let targetRatio :=
    num_div (num_of_Z (targetWidth orientation))
            (num_of_Z (targetHeight orientation)) in
  let sourceX := num_of_Z 0 in
  let sourceY := num_of_Z 0 in
  let sourceWidth := num_of_Z (videoWidth video) in
  let sourceHeight := num_of_Z (videoHeight video) in
  if num_gt videoRatio targetRatio then
    let sourceWidth := num_mul (num_of_Z (videoHeight video)) targetRatio in
    let sourceX :=
      num_div (num_sub (num_of_Z (videoWidth video)) sourceWidth) (num_of_Z 2) in
    (sourceX, sourceY, sourceWidth, sourceHeight)
  else
    let sourceHeight := num_div (num_of_Z (videoWidth video)) targetRatio in
    let sourceY :=
      num_div (num_sub (num_of_Z (videoHeight video)) sourceHeight) (num_of_Z 2) in
    (sourceX, sourceY, sourceWidth, sourceHeight).

(** The image encoder behind [canvas.toDataURL]: the base64 text of the
    canvas content in the given format at the given quality. *)
Variable encode_base64 : string -> Q -> HTMLCanvasElement N -> string.

Definition toDataURL (type : string) (quality : Q)
    (canvas : HTMLCanvasElement N) : string :=
  "data:" +:+ type +:+ ";base64," +:+ encode_base64 type quality canvas.

(** [capture]: the canvas after the call (when it was touched) and the
    calls made to the props. *)
Definition capture (videoRef : option HTMLVideoElement)
    (canvasRef : option (HTMLCanvasElement N)) (orientation : Orientation)
  : option (HTMLCanvasElement N) * list callback :=
  match videoRef, canvasRef with
  | Some video, Some canvas =>
      if has_2d_context canvas then
        let '(sourceX, sourceY, sourceWidth, sourceHeight) :=
          source_rect video orientation in
        let canvas' :=
          {| width := targetWidth orientation;
             height := targetHeight orientation;
             has_2d_context := true;
             drawn := Some {| sx := sourceX; sy := sourceY;
                              sWidth := sourceWidth; sHeight := sourceHeight;
                              dx := 0; dy := 0;
                              dWidth := targetWidth orientation;
                              dHeight := targetHeight orientation |} |} in
        let dataUrl := toDataURL "image/jpeg" (85 # 100) canvas' in
        (Some canvas', [onCapture dataUrl; onGenerate])
      else (canvasRef, [])
  | _, _ => (canvasRef, [])
  end.

(** First render and first run of the effect.  [stream] starts as [null],
    and that is the value the clean-up function closes over.  The video
    element is rendered only when there is no captured image; the canvas
    has the default size of a canvas element. *)
Definition mount (o : Orientation) (captured : option string) : State N :=
  let stream0 : option MediaStream := None in
  {| orientation := o;
     capturedImage := captured;
     stream := stream0;
     countdown := None;
     videoRef :=
       match captured with
       | None => Some {| videoWidth := 0; videoHeight := 0; srcObject := None |}
       | Some _ => None
       end;
     canvasRef := Some {| width := 300; height := 150;
                          has_2d_context := true; drawn := None |};
     cleanup_stream := stream0;
     intervals := [];
     next_handle := 0;
     live := [];
     calls := [] |}.

(** [stream?.getTracks().forEach(track => track.stop())] *)
Definition stop_tracks (m : option MediaStream) (l : list MediaStream)
  : list MediaStream :=
  match m with
  | Some h => List.filter (fun x => negb (Nat.eqb x h)) l
  | None => l
  end.

Definition set_countdown (c : option Z) (s : State N) : State N :=
  {| orientation := orientation s; capturedImage := capturedImage s;
     stream := stream s; countdown := c;
     videoRef := videoRef s; canvasRef := canvasRef s;
     cleanup_stream := cleanup_stream s; intervals := intervals s;
     next_handle := next_handle s; live := live s; calls := calls s |}.

Definition clearInterval (h : nat) (s : State N) : State N :=
  {| orientation := orientation s; capturedImage := capturedImage s;
     stream := stream s; countdown := countdown s;
     videoRef := videoRef s; canvasRef := canvasRef s;
     cleanup_stream := cleanup_stream s;
     intervals := List.filter (fun i => negb (Nat.eqb (handle i) h)) (intervals s);
     next_handle := next_handle s; live := live s; calls := calls s |}.

(** [capture()] run inside the component. *)
Definition run_capture (o : Orientation) (s : State N) : State N :=
  let '(canvas', cs) := capture (videoRef s) (canvasRef s) o in
  {| orientation := orientation s; capturedImage := capturedImage s;
     stream := stream s; countdown := countdown s;
     videoRef := videoRef s; canvasRef := canvas';
     cleanup_stream := cleanup_stream s; intervals := intervals s;
     next_handle := next_handle s; live := live s;
     calls := calls s ++ cs |}.

(** [startCountdown]: [setCountdown(3)] and a new timer. *)
Definition startCountdown (s : State N) : State N :=
  {| orientation := orientation s; capturedImage := capturedImage s;
     stream := stream s; countdown := Some 3%Z;
     videoRef := videoRef s; canvasRef := canvasRef s;
     cleanup_stream := cleanup_stream s;
     intervals := intervals s ++
       [{| handle := next_handle s; closure_orientation := orientation s |}];
     next_handle := S (next_handle s); live := live s; calls := calls s |}.

(** The callback of the timer: [setCountdown(prev => ...)]. *)
Definition interval_callback (i : Interval) (s : State N) : State N :=
  match countdown s with
  | Some 1%Z =>
      set_countdown None
        (run_capture (closure_orientation i) (clearInterval (handle i) s))
  | Some prev =>
      set_countdown (if Z.eqb prev 0 then None else Some (prev - 1)%Z) s
  | None => set_countdown None s
  end.

Definition find_interval (h : nat) (s : State N) : option Interval :=
  find (fun i => Nat.eqb (handle i) h) (intervals s).

Definition step (s : State N) (e : event) : State N :=
  match e with
  | GetUserMediaResolves m w h =>
      (* the browser hands out stream [m], of native size w by h; then
         setStream(mediaStream); if (videoRef.current) ... srcObject = ... *)
      {| orientation := orientation s; capturedImage := capturedImage s;
         stream := Some m; countdown := countdown s;
         videoRef :=
           match videoRef s with
           | Some _ => Some {| videoWidth := w; videoHeight := h;
                               srcObject := Some m |}
           | None => None
           end;
         canvasRef := canvasRef s;
         cleanup_stream := cleanup_stream s; intervals := intervals s;
         next_handle := next_handle s; live := m :: live s;
         calls := calls s |}
  | GetUserMediaRejects => s
  | ClickShutter => startCountdown s
  | ClickBack =>
      {| orientation := orientation s; capturedImage := capturedImage s;
         stream := stream s; countdown := countdown s;
         videoRef := videoRef s; canvasRef := canvasRef s;
         cleanup_stream := cleanup_stream s; intervals := intervals s;
         next_handle := next_handle s; live := live s;
         calls := calls s ++ [onBack] |}
  | Tick h =>
      (* the callback of an armed timer.  On a page that is still mounted
         this is what runs.  After [Unmount] the state updater is no
         longer run by React, so there the counter and the timers of the
         model are not those of the page; what is stated below of a page
         after [Unmount] concerns its stream and its calls to the props,
         which a tick cannot change there either way. *)
      match find_interval h s with
      | Some i => interval_callback i s
      | None => s
      end
  | SetOrientation o =>
      (* the dependencies [targetWidth, targetHeight] change exactly when
         the orientation does: the old clean-up runs, then the effect of
         this render, whose clean-up sees this render's [stream] *)
      if Bool.eqb (isPortrait o) (isPortrait (orientation s)) then s
      else
        {| orientation := o; capturedImage := capturedImage s;
           stream := stream s; countdown := countdown s;
           videoRef := videoRef s; canvasRef := canvasRef s;
           cleanup_stream := stream s; intervals := intervals s;
           next_handle := next_handle s;
           live := stop_tracks (cleanup_stream s) (live s);
           calls := calls s |}
  | Unmount =>
      {| orientation := orientation s; capturedImage := capturedImage s;
         stream := stream s; countdown := countdown s;
         videoRef := None; canvasRef := None;
         cleanup_stream := cleanup_stream s; intervals := intervals s;
         next_handle := next_handle s;
         live := stop_tracks (cleanup_stream s) (live s);
         calls := calls s |}
  end.

Definition run (s : State N) (es : list event) : State N := fold_left step es s.

Definition truthy_countdown (c : option Z) : bool :=
  match c with
  | Some n => negb (Z.eqb n 0)
  | None => false
  end.

(** The controls the page renders: BACK always; the shutter button only
    while there is no captured image and [countdown] is falsy. *)
Definition rendered (s : State N) : list control :=
  BackButton ::
  match capturedImage s with
  | None => if truthy_countdown (countdown s) then [] else [ShutterButton]
  | Some _ => []
  end.

Definition click (c : control) : event :=
  match c with
  | BackButton => ClickBack
  | ShutterButton => ClickShutter
  end.

(** Timer handles are handed out in increasing order: those of the armed
    timers are all below the next one. *)
Definition handles_fresh (s : State N) : Prop :=
  Forall (fun i => (handle i < next_handle s)%nat) (intervals s).

End Capture.

Definition is_tick (h : nat) (e : event) : bool :=
  match e with
  | Tick h' => Nat.eqb h' h
  | _ => false
  end.

Definition is_back (e : event) : bool :=
  match e with
  | ClickBack => true
  | _ => false
  end.

(** How many times timer [h] fired, and how often BACK was pressed. *)
Definition count_ticks (h : nat) (es : list event) : nat :=
  length (List.filter (is_tick h) es).

Definition count_backs (es : list event) : nat :=
  length (List.filter is_back es).

(** The streams handed out by [getUserMedia] in a run. *)
Definition granted (es : list event) : list MediaStream :=
  flat_map (fun e => match e with
                     | GetUserMediaResolves m _ _ => [m]
                     | _ => []
                     end) es.

(** The images passed to [onCapture] among the calls to the props. *)
Definition captured_frames (cs : list callback) : list string :=
  flat_map (fun c => match c with
                     | onCapture image => [image]
                     | _ => []
                     end) cs.

Definition is_orientation_change (e : event) : bool :=
  match e with
  | SetOrientation _ => true
  | _ => false
  end.

End Camera.

(** ** src/pages/AdminPage.tsx *)

Module Admin.

(** [Concept] and [PhotoboothSettings] of the shared type declarations. *)
Record Concept := {
  id : string;
  name : string;
  prompt : string;
  thumbnail : string
}.

Record PhotoboothSettings := {
  eventName : string;
  eventDescription : string;
  folderId : string;
  overlayImage : option string;
  backgroundImage : option string;
  autoResetTime : Z;
  adminPin : string;
  orientation : Camera.Orientation;
  activeEventId : option string
}.

Inductive Tab := settings_tab | concepts_tab.

(** The [useState] cells of the page. *)
Record State := {
  isAuthenticated : bool;
  pin : string;
  localSettings : PhotoboothSettings;
  localConcepts : list Concept;
  gasUrl : string;
  activeTab : Tab;
  isUploading : bool
}.

(** Observable effects of the handlers, in program order: dialogs, writes
    to [localStorage], calls to the remote store and calls to the props
    that commit settings or concepts to the application. *)
Inductive effect :=
| alert (message : string)
| localStorage_setItem (key value : string)
| saveSettingsToGas (settings : PhotoboothSettings) (adminPin : string)
| saveConceptsToGas (concepts : list Concept) (adminPin : string)
| onSaveSettings (settings : PhotoboothSettings)
| onSaveConcepts (concepts : list Concept).

Record World := {
  page : State;
  localStorage : gmap string string;
  effects : list effect
}.

Definition APPS_SCRIPT_BASE_URL : string := "APPS_SCRIPT_BASE_URL".

Section Page.

(** [DEFAULT_GAS_URL] of the constants file. *)
Variable DEFAULT_GAS_URL : string.

(** The props [settings] and [concepts]: what the application has
    committed. *)
Variable settings : PhotoboothSettings.
Variable concepts : list Concept.

(** First render, then the mount effect that reads the cached base URL:
    [localStorage.getItem(...) || DEFAULT_GAS_URL]. *)
Definition mount (storage : gmap string string) : World :=
  let savedUrl :=
    match storage !! APPS_SCRIPT_BASE_URL with
    | Some url => if truthy_string url then url else DEFAULT_GAS_URL
    | None => DEFAULT_GAS_URL
    end in
  {| page := {| isAuthenticated := false;
                pin := "";
                localSettings := settings;
                localConcepts := concepts;
                gasUrl := savedUrl;
                activeTab := settings_tab;
                isUploading := false |};
     localStorage := storage;
     effects := [] |}.

Definition setIsAuthenticated (b : bool) (s : State) : State :=
  {| isAuthenticated := b; pin := pin s;
     localSettings := localSettings s; localConcepts := localConcepts s;
     gasUrl := gasUrl s; activeTab := activeTab s;
     isUploading := isUploading s |}.

Definition setPin (p : string) (s : State) : State :=
  {| isAuthenticated := isAuthenticated s; pin := p;
     localSettings := localSettings s; localConcepts := localConcepts s;
     gasUrl := gasUrl s; activeTab := activeTab s;
     isUploading := isUploading s |}.

Definition handleLogin (w : World) : World :=
  if String.eqb (pin (page w)) (adminPin settings) then
    {| page := setIsAuthenticated true (page w);
       localStorage := localStorage w;
       effects := effects w |}
  else
    {| page := setPin "" (page w);
       localStorage := localStorage w;
       effects := effects w ++ [alert "INVALID SECURITY PIN"] |}.

(** [handleSaveSettings]; [ok] is the truth value of what the awaited
    [saveSettingsToGas] call resolved to. *)
Definition handleSaveSettings (ok : bool) (w : World) : World :=
  let storage' := <[APPS_SCRIPT_BASE_URL := gasUrl (page w)]> (localStorage w) in
  let before :=
    effects w ++
    [localStorage_setItem APPS_SCRIPT_BASE_URL (gasUrl (page w));
     saveSettingsToGas (localSettings (page w)) (adminPin settings)] in
  {| page := page w;
     localStorage := storage';
     effects :=
       if ok then
         before ++ [onSaveSettings (localSettings (page w));
                    alert "Settings saved and synced to cloud"]
       else before |}.

(** The click handler of SYNC ALL CONCEPTS (lines 222 to 225). *)
Definition handleSyncConcepts (ok : bool) (w : World) : World :=
  let before :=
    effects w ++
    [saveConceptsToGas (localConcepts (page w)) (adminPin settings)] in
  {| page := page w;
     localStorage := localStorage w;
     effects :=
       if ok then
         before ++ [onSaveConcepts (localConcepts (page w));
                    alert "Concepts updated on cloud"]
       else before |}.

(** Effects that commit settings or concepts to the application. *)
Definition commits (e : effect) : bool :=
  match e with
  | onSaveSettings _ | onSaveConcepts _ => true
  | _ => false
  end.

End Page.

End Admin.

(** ** The specification's reading of a service response

    Section 4.2 of the specification speaks of candidates, not of the
    parts of one candidate: "select the first candidate containing image
    data and ignore text-only candidates".  These definitions follow
    those words, to be compared with [Gemini.generateAIImage]. *)

Module KioskSpec.

Import Gemini.

(** The image data a candidate carries, if it carries any. *)
Definition candidate_image (c : Candidate) : option string :=
  match content c with
  | Some ct =>
      match parts ct with
      | Some ps => first_inline_data ps
      | None => None
      end
  | None => None
  end.

(** The image of the first image-bearing candidate of the ordered list. *)
Fixpoint first_image_bearing_candidate (cs : list Candidate) : option string :=
  match cs with
  | [] => None
  | c :: rest =>
      match candidate_image c with
      | Some d => Some d
      | None => first_image_bearing_candidate rest
      end
  end.

Definition response_image (r : GenerateContentResponse) : option string :=
  match candidates r with
  | Some cs => first_image_bearing_candidate cs
  | None => None
  end.

End KioskSpec.

(** ** Sample inputs *)

Module Samples.

Import Gemini.

Definition caption_part : Part :=
  {| inlineData := None; text := Some "Here is your portrait." |}.

Definition image_part (d : string) : Part :=
  {| inlineData := Some {| data := Some d; mimeType := Some "image/png" |};
     text := None |}.

Definition candidate_of (ps : list Part) : Candidate :=
  {| content := Some {| parts := Some ps |} |}.

(** A candidate with no parts followed by an image-bearing one. *)
Definition empty_then_image : GenerateContentResponse :=
  {| candidates := Some [candidate_of [];
                         candidate_of [image_part "R0lGODlhAQABAAAAACw"]] |}.

(** A text-only candidate followed by an image-bearing one. *)
Definition text_then_image : GenerateContentResponse :=
  {| candidates := Some [candidate_of [caption_part];
                         candidate_of [image_part "iVBORw0KGgo"]] |}.

(** One candidate: a caption, then an image. *)
Definition caption_and_image : GenerateContentResponse :=
  {| candidates := Some [candidate_of [caption_part; image_part "iVBORw0KGgo"]] |}.

Definition always (r : GenerateContentResponse)
  : string -> GenerateContentParameters -> sdk_result :=
  fun _ _ => Resolved r.

Definition jpeg_frame : string := "data:image/jpeg;base64,/9j/4AAQSkZJRg".

(** A 1920 by 1080 webcam feed and the hidden canvas as first rendered.
    The samples of the camera page run on the browser's arithmetic. *)
Definition webcam : Camera.HTMLVideoElement :=
  {| Camera.videoWidth := 1920; Camera.videoHeight := 1080;
     Camera.srcObject := Some 0%nat |}.

Definition blank_canvas : Camera.HTMLCanvasElement float :=
  {| Camera.width := 300; Camera.height := 150;
     Camera.has_2d_context := true; Camera.drawn := None |}.

(** An encoder that always yields the same JPEG text. *)
Definition fixed_encoder
  : string -> Q -> Camera.HTMLCanvasElement float -> string :=
  fun _ _ _ => "/9j/4AAQSkZJRg".

(** The page in portrait with the camera granted. *)
Definition ready_page : Camera.State float :=
  Camera.run fixed_encoder (Camera.mount Camera.portrait None)
    [Camera.GetUserMediaResolves 0%nat 1920 1080].

(** The page in portrait, the camera granted, the shutter pressed: the
    countdown shows 3 and its timer is armed. *)
Definition counting_page : Camera.State float :=
  Camera.run fixed_encoder (Camera.mount Camera.portrait None)
    [Camera.GetUserMediaResolves 0%nat 1920 1080; Camera.ClickShutter].

(** The kiosk configured with PIN "1234", and an admin page on which
    "0000" has been typed. *)
Definition kiosk_settings : Admin.PhotoboothSettings :=
  {| Admin.eventName := "CORO AI PHOTOBOOTH";
     Admin.eventDescription := "Transform Your Reality";
     Admin.folderId := "";
     Admin.overlayImage := None;
     Admin.backgroundImage := None;
     Admin.autoResetTime := 60;
     Admin.adminPin := "1234";
     Admin.orientation := Camera.portrait;
     Admin.activeEventId := None |}.

Definition pin_typed (p : string) : Admin.World :=
  let w := Admin.mount "https://script.google.com/macros/s/default/exec"
             kiosk_settings [] ∅ in
  {| Admin.page := Admin.setPin p (Admin.page w);
     Admin.localStorage := Admin.localStorage w;
     Admin.effects := Admin.effects w |}.

End Samples.

(** ** src/pages/AdminPage.tsx: concept objects and the arrays that hold them

    The concept editors write into the concept objects themselves
    ([nc[index].name = ...] on a copy of the array, lines 198 to 216).
    Objects live in a store and arrays hold references, so that it shows
    which arrays see a write. *)

Module ConceptStore.

Inductive field := name_field | prompt_field | thumbnail_field.

(** [object.field = v] *)
Definition write (f : field) (v : string) (c : Admin.Concept) : Admin.Concept :=
  match f with
  | name_field =>
      {| Admin.id := Admin.id c; Admin.name := v;
         Admin.prompt := Admin.prompt c; Admin.thumbnail := Admin.thumbnail c |}
  | prompt_field =>
      {| Admin.id := Admin.id c; Admin.name := Admin.name c;
         Admin.prompt := v; Admin.thumbnail := Admin.thumbnail c |}
  | thumbnail_field =>
      {| Admin.id := Admin.id c; Admin.name := Admin.name c;
         Admin.prompt := Admin.prompt c; Admin.thumbnail := v |}
  end.

Definition read_field (f : field) (c : Admin.Concept) : string :=
  match f with
  | name_field => Admin.name c
  | prompt_field => Admin.prompt c
  | thumbnail_field => Admin.thumbnail c
  end.

Record State := {
  objects : gmap nat Admin.Concept;   (* the concept objects, by reference *)
  concepts : list nat;                (* the array passed as the prop *)
  localConcepts : list nat;           (* the array in the state cell *)
  synced : list (list nat)            (* arrays passed to [onSaveConcepts] *)
}.

(** [useState(concepts)]: the state cell starts as the array of the prop. *)
Definition mount (store : gmap nat Admin.Concept) (prop : list nat) : State :=
  {| objects := store; concepts := prop; localConcepts := prop; synced := [] |}.

(** An editor of the concept at [index]: [const nc = [...localConcepts];
    nc[index].field = v; setLocalConcepts(nc)].  The copy holds the same
    references.  (An index outside the array would throw; the editors are
    rendered from the array, so it does not occur.) *)
Definition edit (f : field) (index : nat) (v : string) (s : State) : State :=
  let nc := localConcepts s in
  match nc !! index with
  | Some r =>
      {| objects := alter (write f v) r (objects s);
         concepts := concepts s;
         localConcepts := nc;
         synced := synced s |}
  | None => s
  end.

(** SYNC ALL CONCEPTS with the answer of the remote store. *)
Definition sync (ok : bool) (s : State) : State :=
  {| objects := objects s; concepts := concepts s;
     localConcepts := localConcepts s;
     synced := if ok then synced s ++ [localConcepts s] else synced s |}.

Inductive event :=
| Edit (f : field) (index : nat) (v : string)
| Sync (ok : bool).

Definition step (s : State) (e : event) : State :=
  match e with
  | Edit f index v => edit f index v s
  | Sync ok => sync ok s
  end.

Definition run (s : State) (es : list event) : State := fold_left step es s.

(** What an array shows: the objects its references lead to. *)
Definition shown (s : State) (array : list nat) : list (option Admin.Concept) :=
  (fun r => objects s !! r) <$> array.

End ConceptStore.

(** ** src/pages/AdminPage.tsx: the whole page as a state machine

    The handlers above, the inline handlers of the inputs and the overlay
    upload, each enabled only while the element that carries it is
    rendered.  The props [settings] and [concepts] are fixed. *)

Module AdminUI.

(** [{...localSettings, field: value}] for the fields the page edits. *)
Definition with_eventName (v : string) (p : Admin.PhotoboothSettings)
  : Admin.PhotoboothSettings :=
  {| Admin.eventName := v;
     Admin.eventDescription := Admin.eventDescription p;
     Admin.folderId := Admin.folderId p;
     Admin.overlayImage := Admin.overlayImage p;
     Admin.backgroundImage := Admin.backgroundImage p;
     Admin.autoResetTime := Admin.autoResetTime p;
     Admin.adminPin := Admin.adminPin p;
     Admin.orientation := Admin.orientation p;
     Admin.activeEventId := Admin.activeEventId p |}.

Definition with_eventDescription (v : string) (p : Admin.PhotoboothSettings)
  : Admin.PhotoboothSettings :=
  {| Admin.eventName := Admin.eventName p;
     Admin.eventDescription := v;
     Admin.folderId := Admin.folderId p;
     Admin.overlayImage := Admin.overlayImage p;
     Admin.backgroundImage := Admin.backgroundImage p;
     Admin.autoResetTime := Admin.autoResetTime p;
     Admin.adminPin := Admin.adminPin p;
     Admin.orientation := Admin.orientation p;
     Admin.activeEventId := Admin.activeEventId p |}.

Definition with_folderId (v : string) (p : Admin.PhotoboothSettings)
  : Admin.PhotoboothSettings :=
  {| Admin.eventName := Admin.eventName p;
     Admin.eventDescription := Admin.eventDescription p;
     Admin.folderId := v;
     Admin.overlayImage := Admin.overlayImage p;
     Admin.backgroundImage := Admin.backgroundImage p;
     Admin.autoResetTime := Admin.autoResetTime p;
     Admin.adminPin := Admin.adminPin p;
     Admin.orientation := Admin.orientation p;
     Admin.activeEventId := Admin.activeEventId p |}.

Definition with_adminPin (v : string) (p : Admin.PhotoboothSettings)
  : Admin.PhotoboothSettings :=
  {| Admin.eventName := Admin.eventName p;
     Admin.eventDescription := Admin.eventDescription p;
     Admin.folderId := Admin.folderId p;
     Admin.overlayImage := Admin.overlayImage p;
     Admin.backgroundImage := Admin.backgroundImage p;
     Admin.autoResetTime := Admin.autoResetTime p;
     Admin.adminPin := v;
     Admin.orientation := Admin.orientation p;
     Admin.activeEventId := Admin.activeEventId p |}.

Definition with_overlayImage (v : option string) (p : Admin.PhotoboothSettings)
  : Admin.PhotoboothSettings :=
  {| Admin.eventName := Admin.eventName p;
     Admin.eventDescription := Admin.eventDescription p;
     Admin.folderId := Admin.folderId p;
     Admin.overlayImage := v;
     Admin.backgroundImage := Admin.backgroundImage p;
     Admin.autoResetTime := Admin.autoResetTime p;
     Admin.adminPin := Admin.adminPin p;
     Admin.orientation := Admin.orientation p;
     Admin.activeEventId := Admin.activeEventId p |}.

(** The remaining state setters. *)
Definition setLocalSettings (v : Admin.PhotoboothSettings) (s : Admin.State)
  : Admin.State :=
  {| Admin.isAuthenticated := Admin.isAuthenticated s; Admin.pin := Admin.pin s;
     Admin.localSettings := v; Admin.localConcepts := Admin.localConcepts s;
     Admin.gasUrl := Admin.gasUrl s; Admin.activeTab := Admin.activeTab s;
     Admin.isUploading := Admin.isUploading s |}.

Definition setGasUrl (v : string) (s : Admin.State) : Admin.State :=
  {| Admin.isAuthenticated := Admin.isAuthenticated s; Admin.pin := Admin.pin s;
     Admin.localSettings := Admin.localSettings s;
     Admin.localConcepts := Admin.localConcepts s;
     Admin.gasUrl := v; Admin.activeTab := Admin.activeTab s;
     Admin.isUploading := Admin.isUploading s |}.

Definition setActiveTab (v : Admin.Tab) (s : Admin.State) : Admin.State :=
  {| Admin.isAuthenticated := Admin.isAuthenticated s; Admin.pin := Admin.pin s;
     Admin.localSettings := Admin.localSettings s;
     Admin.localConcepts := Admin.localConcepts s;
     Admin.gasUrl := Admin.gasUrl s; Admin.activeTab := v;
     Admin.isUploading := Admin.isUploading s |}.

Definition setLocalConcepts (v : list Admin.Concept) (s : Admin.State)
  : Admin.State :=
  {| Admin.isAuthenticated := Admin.isAuthenticated s; Admin.pin := Admin.pin s;
     Admin.localSettings := Admin.localSettings s;
     Admin.localConcepts := v;
     Admin.gasUrl := Admin.gasUrl s; Admin.activeTab := Admin.activeTab s;
     Admin.isUploading := Admin.isUploading s |}.

Definition setIsUploading (v : bool) (s : Admin.State) : Admin.State :=
  {| Admin.isAuthenticated := Admin.isAuthenticated s; Admin.pin := Admin.pin s;
     Admin.localSettings := Admin.localSettings s;
     Admin.localConcepts := Admin.localConcepts s;
     Admin.gasUrl := Admin.gasUrl s; Admin.activeTab := Admin.activeTab s;
     Admin.isUploading := v |}.

(** Effects of the page: those of the handlers modelled above, the
    overlay upload call and the BACK prop. *)
Inductive effect :=
| handler_effect (e : Admin.effect)
| uploadOverlayToGas (image : string) (adminPin : string)
| onBack.

(** The overlay upload in flight, if any.  Its handlers close over the
    [localSettings] of the render in which the file was chosen. *)
Inductive upload_phase :=
| Idle
| Reading (closure_localSettings : Admin.PhotoboothSettings) (file : string)
| Uploading (closure_localSettings : Admin.PhotoboothSettings).

Record Session := {
  page : Admin.State;
  localStorage : gmap string string;
  effects : list effect;
  upload : upload_phase
}.

(** What the admin and the browser can do.  A save carries the answer of
    the remote store; a chosen file is named by the data URL the file
    reader will produce for it; an editor of a concept is named by the
    field it writes and the index of the concept. *)
Inductive event :=
| TypePin (p : string)
| PressAuthorize
| PressBack
| SelectTab (t : Admin.Tab)
| PressDisconnect
| EditEventName (v : string)
| EditEventDescription (v : string)
| EditFolderId (v : string)
| EditGasUrl (v : string)
| EditAdminPin (v : string)
| PressSaveSettings (ok : bool)
| ChooseOverlayFile (file : option string)
| FileReaderLoads
| OverlayUploadAnswers (ok : bool) (url : string)
| EditConcept (f : ConceptStore.field) (index : nat) (v : string)
| PressSyncConcepts (ok : bool).

(** The change an input of the settings form makes to [localSettings]. *)
Definition edit_settings (e : event) (p : Admin.PhotoboothSettings)
  : Admin.PhotoboothSettings :=
  match e with
  | EditEventName v => with_eventName v p
  | EditEventDescription v => with_eventDescription v p
  | EditFolderId v => with_folderId v p
  | EditAdminPin v => with_adminPin v p
  | _ => p
  end.


Definition on_settings_tab (s : Admin.State) : bool :=
  match Admin.activeTab s with
  | Admin.settings_tab => true
  | Admin.concepts_tab => false
  end.

Definition set_page (p : Admin.State) (s : Session) : Session :=
  {| page := p; localStorage := localStorage s;
     effects := effects s; upload := upload s |}.

Section Page.

Variable settings : Admin.PhotoboothSettings.

(** A handler of the first model run on the session: what it appends to
    the effects is appended here. *)
Definition run_handler (h : Admin.World -> Admin.World) (s : Session) : Session :=
  let w := h {| Admin.page := page s;
                Admin.localStorage := localStorage s;
                Admin.effects := [] |} in
  {| page := Admin.page w;
     localStorage := Admin.localStorage w;
     effects := effects s ++ map handler_effect (Admin.effects w);
     upload := upload s |}.

(** The login view is rendered while [isAuthenticated] is false, the
    admin view otherwise; each tab renders its own controls; the button
    that opens the file dialog is disabled while [isUploading].  An event
    on an element that is not rendered cannot happen and changes
    nothing.  The file reader and the upload answer whenever they are
    due. *)
Definition step (s : Session) (e : event) : Session :=
  match e with
  | FileReaderLoads =>
      match upload s with
      | Reading closure file =>
          {| page := page s; localStorage := localStorage s;
             effects := effects s ++
                        [uploadOverlayToGas file (Admin.adminPin settings)];
             upload := Uploading closure |}
      | _ => s
      end
  | OverlayUploadAnswers ok url =>
      match upload s with
      | Uploading closure =>
          {| page :=
               setIsUploading false
                 (if ok
                  then setLocalSettings (with_overlayImage (Some url) closure)
                         (page s)
                  else page s);
             localStorage := localStorage s;
             effects := effects s ++
                        [handler_effect
                           (Admin.alert (if ok then "Overlay updated"
                                         else "Upload error"))];
             upload := Idle |}
      | _ => s
      end
  | TypePin p =>
      if Admin.isAuthenticated (page s) then s
      else set_page (Admin.setPin p (page s)) s
  | PressAuthorize =>
      if Admin.isAuthenticated (page s) then s
      else run_handler (Admin.handleLogin settings) s
  | PressBack =>
      if Admin.isAuthenticated (page s) then s
      else {| page := page s; localStorage := localStorage s;
              effects := effects s ++ [onBack]; upload := upload s |}
  | SelectTab t =>
      if Admin.isAuthenticated (page s)
      then set_page (setActiveTab t (page s)) s
      else s
  | PressDisconnect =>
      if Admin.isAuthenticated (page s)
      then set_page (Admin.setIsAuthenticated false (page s)) s
      else s
  | EditEventName _ | EditEventDescription _ | EditFolderId _
  | EditAdminPin _ =>
      if Admin.isAuthenticated (page s) && on_settings_tab (page s)
      then set_page (setLocalSettings
                       (edit_settings e (Admin.localSettings (page s)))
                       (page s)) s
      else s
  | EditGasUrl v =>
      if Admin.isAuthenticated (page s) && on_settings_tab (page s)
      then set_page (setGasUrl v (page s)) s
      else s
  | PressSaveSettings ok =>
      if Admin.isAuthenticated (page s) && on_settings_tab (page s)
      then run_handler (Admin.handleSaveSettings settings ok) s
      else s
  | ChooseOverlayFile file =>
      if Admin.isAuthenticated (page s) && on_settings_tab (page s)
         && negb (Admin.isUploading (page s))
      then match file with
           | Some f =>
               {| page := setIsUploading true (page s);
                  localStorage := localStorage s;
                  effects := effects s;
                  upload := Reading (Admin.localSettings (page s)) f |}
           | None => s
           end
      else s
  | EditConcept f index v =>
      (* the state cell then shows the concepts as they are with that
         field of the concept at [index] written (see [ConceptStore]) *)
      if Admin.isAuthenticated (page s) && negb (on_settings_tab (page s))
      then set_page (setLocalConcepts
                       (alter (ConceptStore.write f v) index
                          (Admin.localConcepts (page s)))
                       (page s)) s
      else s
  | PressSyncConcepts ok =>
      if Admin.isAuthenticated (page s) && negb (on_settings_tab (page s))
      then run_handler (Admin.handleSyncConcepts settings ok) s
      else s
  end.

Definition run (s : Session) (es : list event) : Session :=
  fold_left step es s.

End Page.

(** The page as first mounted. *)
Definition mount (DEFAULT_GAS_URL : string) (settings : Admin.PhotoboothSettings)
    (concepts : list Admin.Concept) (storage : gmap string string) : Session :=
  let w := Admin.mount DEFAULT_GAS_URL settings concepts storage in
  {| page := Admin.page w;
     localStorage := Admin.localStorage w;
     effects := map handler_effect (Admin.effects w);
     upload := Idle |}.

(** Effects that reach outside the page: everything but a dialog and the
    BACK prop. *)
Definition reaches_outside (e : effect) : bool :=
  match e with
  | handler_effect (Admin.alert _) => false
  | onBack => false
  | _ => true
  end.

(** The page as it is behind its PIN gate: the login view, with all it
    holds as mounted and nothing done outside the page. *)
Definition behind_gate (settings : Admin.PhotoboothSettings)
    (concepts : list Admin.Concept) (storage : gmap string string)
    (s : Session) : Prop :=
  Admin.isAuthenticated (page s) = false /\
  Admin.localSettings (page s) = settings /\
  Admin.localConcepts (page s) = concepts /\
  localStorage s = storage /\
  upload s = Idle /\
  forallb (fun e => negb (reaches_outside e)) (effects s) = true.

(** The overlay upload calls among the effects, and the alerts that
    close an upload. *)
Definition is_upload_call (e : effect) : bool :=
  match e with
  | uploadOverlayToGas _ _ => true
  | _ => false
  end.

Definition is_upload_answer (e : effect) : bool :=
  match e with
  | handler_effect (Admin.alert message) =>
      String.eqb message "Overlay updated" || String.eqb message "Upload error"
  | _ => false
  end.

Definition upload_calls (l : list effect) : nat :=
  length (List.filter is_upload_call l).

Definition upload_answers (l : list effect) : nat :=
  length (List.filter is_upload_answer l).

(** How many upload calls the page is waiting on, by its own record. *)
Definition awaited (u : upload_phase) : nat :=
  match u with
  | Uploading _ => 1
  | Idle | Reading _ _ => 0
  end.

End AdminUI.

(** ** More sample inputs *)

Module MoreSamples.


(** A kiosk whose configured PIN is empty. *)
Definition open_settings : Admin.PhotoboothSettings :=
  AdminUI.with_adminPin "" Samples.kiosk_settings.

Definition neon : Admin.Concept :=
  {| Admin.id := "c1"; Admin.name := "Neon City";
     Admin.prompt := "cyberpunk portrait"; Admin.thumbnail := "neon.png" |}.

Definition retro : Admin.Concept :=
  {| Admin.id := "c2"; Admin.name := "Retro Film";
     Admin.prompt := "vintage film still"; Admin.thumbnail := "retro.png" |}.

Definition two_concepts : gmap nat Admin.Concept :=
  <[0%nat := neon]> (<[1%nat := retro]> ∅).

(** The camera page left while its countdown runs. *)
Definition left_while_counting : Camera.State float :=
  Camera.run Samples.fixed_encoder (Camera.mount Camera.portrait None)
    [Camera.GetUserMediaResolves 0%nat 1920 1080; Camera.ClickShutter;
     Camera.Unmount].

End MoreSamples.

(** * Properties *)

(** ** Generation adapter *)

Section GeminiProperties.

Import Gemini.

Lemma first_inline_data_truthy (ps : list Part) (d : string) :
  first_inline_data ps = Some d -> truthy_string d = true.
Proof.
  induction ps as [|p rest IH]; simpl; [discriminate|].
  destruct (truthy_opt_string (part_image_data p)) eqn:Ht; [|exact IH].
  intros Hd. rewrite Hd in Ht. exact Ht.
Qed.

(** The loop returns the data of the first part carrying truthy inline
    data: everything before it is skipped. *)
Lemma first_inline_data_Some (ps : list Part) (d : string) :
  first_inline_data ps = Some d <->
  exists skipped p later,
    ps = skipped ++ p :: later /\
    Forall (fun q => truthy_opt_string (part_image_data q) = false) skipped /\
    part_image_data p = Some d /\ truthy_string d = true.
Proof.
  induction ps as [|p rest IH]; simpl.
  - split; [discriminate|].
    intros (skipped & q & later & Heq & _). destruct skipped; discriminate.
  - destruct (truthy_opt_string (part_image_data p)) eqn:Ht.
    + split.
      * intros Hd. exists [], p, rest. repeat split; auto.
        rewrite Hd in Ht. exact Ht.
      * intros (skipped & q & later & Heq & Hsk & Hq & _).
        destruct skipped as [|x skipped]; simpl in Heq.
        -- injection Heq as -> _. exact Hq.
        -- injection Heq as -> _. apply Forall_inv in Hsk. congruence.
    + rewrite IH. split.
      * intros (skipped & q & later & -> & Hsk & Hq & Hd).
        exists (p :: skipped), q, later. repeat split; auto.
      * intros (skipped & q & later & Heq & Hsk & Hq & Hd).
        destruct skipped as [|x skipped]; simpl in Heq.
        -- injection Heq as -> _. rewrite Hq in Ht. simpl in Ht. congruence.
        -- injection Heq as -> ->. apply Forall_inv_tail in Hsk.
           exists skipped, q, later. repeat split; auto.
Qed.

Lemma first_inline_data_None (ps : list Part) :
  first_inline_data ps = None <->
  Forall (fun q => truthy_opt_string (part_image_data q) = false) ps.
Proof.
  induction ps as [|p rest IH]; simpl.
  - split; auto.
  - destruct (truthy_opt_string (part_image_data p)) eqn:Ht.
    + split.
      * intros Hn. rewrite Hn in Ht. discriminate.
      * intros HF. apply Forall_inv in HF. congruence.
    + rewrite IH. split.
      * intros HF. constructor; assumption.
      * apply Forall_inv_tail.
Qed.

Lemma generateAIImage_missing_key key sdk src prompt ar :
  truthy_opt_string key = false ->
  generateAIImage key sdk src prompt ar =
  ([ConsoleError "Gemini Generation Error:" (Error missing_key_message)],
   Abrupt (Error missing_key_message)).
Proof.
  unfold generateAIImage. destruct key as [k|]; simpl.
  - intros ->. reflexivity.
  - reflexivity.
Qed.

Lemma generateAIImage_with_key apiKey sdk src prompt ar :
  truthy_string apiKey = true ->
  outcome (generateAIImage (Some apiKey) sdk src prompt ar) =
  match sdk apiKey (build_request src prompt ar) with
  | Resolved response => after_response response
  | Rejected x => Abrupt (Rejection x)
  end
  /\ network_calls (trace (generateAIImage (Some apiKey) sdk src prompt ar)) =
     [build_request src prompt ar].
Proof.
  intros Hk. unfold generateAIImage. rewrite Hk. simpl.
  unfold mbind, Js_bind, bind, await_generateContent, after_response.
  destruct (sdk apiKey (build_request src prompt ar)) as [response|x]; simpl.
  - destruct (candidates response) as [[|first rest]|]; simpl; auto.
    destruct (content first) as [c|]; simpl; auto.
    destruct (parts c) as [ps|]; simpl; auto.
    destruct (first_inline_data ps); simpl; auto.
  - auto.
Qed.

End GeminiProperties.

Section GeminiClaims.

Import Gemini.

Lemma no_image_after_response (response : GenerateContentResponse) :
  after_response response = Abrupt (Error no_image_message) <->
  (candidates response = None \/ candidates response = Some [] \/
   exists first rest c ps,
     candidates response = Some (first :: rest) /\ content first = Some c /\
     parts c = Some ps /\
     Forall (fun q => truthy_opt_string (part_image_data q) = false) ps).
Proof.
  unfold after_response.
  destruct (candidates response) as [[|first rest]|].
  - split; auto.
  - destruct (content first) as [c|] eqn:Hc.
    + destruct (parts c) as [ps|] eqn:Hp.
      * destruct (first_inline_data ps) as [d|] eqn:Hd.
        -- split; [discriminate|].
           intros [H|[H|(f & r & c' & ps' & H & Hc' & Hp' & HF)]];
             try discriminate.
           injection H as <- <-. rewrite Hc in Hc'. injection Hc' as <-.
           rewrite Hp in Hp'. injection Hp' as <-.
           apply first_inline_data_None in HF. congruence.
        -- split; auto. intros _. right. right.
           exists first, rest, c, ps. repeat split; auto.
           apply first_inline_data_None. exact Hd.
      * split; [discriminate|].
        intros [H|[H|(f & r & c' & ps' & H & Hc' & Hp' & _)]];
          try discriminate.
        injection H as <- <-. rewrite Hc in Hc'. injection Hc' as <-.
        congruence.
    + split; [discriminate|].
      intros [H|[H|(f & r & c' & ps' & H & Hc' & _)]]; try discriminate.
      injection H as <- <-. congruence.
  - split; auto.
Qed.

Lemma image_after_response (response : GenerateContentResponse) (s : string) :
  after_response response = Normal s <->
  exists first rest c ps d,
    candidates response = Some (first :: rest) /\ content first = Some c /\
    parts c = Some ps /\ first_inline_data ps = Some d /\
    s = png_data_url_prefix +:+ d.
Proof.
  unfold after_response. split.
  - destruct (candidates response) as [[|first rest]|]; try discriminate.
    destruct (content first) as [c|] eqn:Hc; try discriminate.
    destruct (parts c) as [ps|] eqn:Hp; try discriminate.
    destruct (first_inline_data ps) as [d|] eqn:Hd; try discriminate.
    intros H. injection H as <-. exists first, rest, c, ps, d. auto.
  - intros (first & rest & c & ps & d & -> & -> & -> & -> & ->). reflexivity.
Qed.

(** C1, as the code has it: once the key is present and the service has
    answered, [generateAIImage] succeeds exactly when the FIRST candidate
    of the response has a part with non-empty inline data; the value is
    the PNG data-URL prefix followed by the data of the first such part of
    that candidate, the parts before it (text-only parts among them) being
    skipped.  The candidates after the first play no role. *)
Theorem generateAIImage_first_part_of_first_candidate
    (apiKey : string) (sdk : string -> GenerateContentParameters -> sdk_result)
    (base64Source prompt : string) (aspectRatio : AspectRatio)
    (response : GenerateContentResponse) (s : string) :
  truthy_string apiKey = true ->
  sdk apiKey (build_request base64Source prompt aspectRatio) = Resolved response ->
  (outcome (generateAIImage (Some apiKey) sdk base64Source prompt aspectRatio)
     = Normal s
   <->
   exists first rest c skipped p later d,
     candidates response = Some (first :: rest) /\
     content first = Some c /\
     parts c = Some (skipped ++ p :: later) /\
     Forall (fun q => truthy_opt_string (part_image_data q) = false) skipped /\
     part_image_data p = Some d /\ truthy_string d = true /\
     s = png_data_url_prefix +:+ d).
Proof.
  intros Hk Hsdk.
  destruct (generateAIImage_with_key apiKey sdk base64Source prompt aspectRatio Hk)
    as [-> _].
  rewrite Hsdk, image_after_response. split.
  - intros (first & rest & c & ps & d & Hc & Hct & Hp & Hd & ->).
    apply first_inline_data_Some in Hd.
    destruct Hd as (skipped & p & later & -> & Hsk & Hpd & Ht).
    exists first, rest, c, skipped, p, later, d. repeat split; auto.
  - intros (first & rest & c & skipped & p & later & d
            & Hc & Hct & Hp & Hsk & Hpd & Ht & ->).
    exists first, rest, c, (skipped ++ p :: later), d. repeat split; auto.
    apply first_inline_data_Some. exists skipped, p, later. auto.
Qed.

(** The theorem at a response whose only candidate holds a caption and
    then an image. *)
Lemma generateAIImage_first_part_of_first_candidate_witness :
  outcome (generateAIImage (Some "AIzaSy-test") (Samples.always Samples.caption_and_image)
             Samples.jpeg_frame "cyberpunk portrait" Ratio_9_16)
    = Normal "data:image/png;base64,iVBORw0KGgo"
  <->
  exists first rest c skipped p later d,
    candidates Samples.caption_and_image = Some (first :: rest) /\
    content first = Some c /\
    parts c = Some (skipped ++ p :: later) /\
    Forall (fun q => truthy_opt_string (part_image_data q) = false) skipped /\
    part_image_data p = Some d /\ truthy_string d = true /\
    "data:image/png;base64,iVBORw0KGgo" = png_data_url_prefix +:+ d.
Proof.
  apply (generateAIImage_first_part_of_first_candidate
           "AIzaSy-test" (Samples.always Samples.caption_and_image)
           Samples.jpeg_frame "cyberpunk portrait" Ratio_9_16
           Samples.caption_and_image "data:image/png;base64,iVBORw0KGgo");
    reflexivity.
Defined.

(** C1 as the specification words it fails: with a text-only candidate
    first and an image-bearing candidate second, the specification's
    selection yields the image, the adapter throws "No image data
    returned from Gemini". *)
Lemma generateAIImage_skips_later_candidates :
  KioskSpec.response_image Samples.text_then_image = Some "iVBORw0KGgo" /\
  outcome (generateAIImage (Some "AIzaSy-test") (Samples.always Samples.text_then_image)
             Samples.jpeg_frame "cyberpunk portrait" Ratio_9_16)
    = Abrupt (Error no_image_message).
Proof. split; reflexivity. Qed.

End GeminiClaims.

Section GeminiFailures.

Import Gemini.

Lemma outcome_missing_key key sdk src prompt ar :
  truthy_opt_string key = false ->
  outcome (generateAIImage key sdk src prompt ar) = Abrupt (Error missing_key_message)
  /\ network_calls (trace (generateAIImage key sdk src prompt ar)) = [].
Proof.
  intros Hk. rewrite (generateAIImage_missing_key key sdk src prompt ar Hk).
  split; reflexivity.
Qed.

Lemma after_response_not_missing_key (response : GenerateContentResponse) :
  after_response response <> Abrupt (Error missing_key_message).
Proof.
  unfold after_response.
  destruct (candidates response) as [[|first rest]|]; try discriminate.
  destruct (content first) as [c|]; try discriminate.
  destruct (parts c) as [ps|]; try discriminate.
  destruct (first_inline_data ps); discriminate.
Qed.

Lemma after_response_not_rejection (response : GenerateContentResponse) x :
  after_response response <> Abrupt (Rejection x).
Proof.
  unfold after_response.
  destruct (candidates response) as [[|first rest]|]; try discriminate.
  destruct (content first) as [c|]; try discriminate.
  destruct (parts c) as [ps|]; try discriminate.
  destruct (first_inline_data ps); discriminate.
Qed.

(** For a response whose first candidate, if there is one, has its
    content and parts, lines 40 to 49 end in the no-image error exactly
    when there is no candidate or no part of the first candidate carries
    non-empty inline data. *)
Lemma no_image_when_well_formed (response : GenerateContentResponse) :
  (forall first rest,
     candidates response = Some (first :: rest) ->
     exists c ps, content first = Some c /\ parts c = Some ps) ->
  (after_response response = Abrupt (Error no_image_message) <->
   (candidates response = None \/ candidates response = Some [] \/
    exists first rest,
      candidates response = Some (first :: rest) /\
      forall c ps, content first = Some c -> parts c = Some ps ->
        Forall (fun q => truthy_opt_string (part_image_data q) = false) ps)).
Proof.
  intros Hwf. rewrite no_image_after_response. split.
  - intros [H|[H|(first & rest & c & ps & Hc & Hct & Hp & HF)]]; auto.
    right. right. exists first, rest. split; [exact Hc|].
    intros c' ps' Hct' Hp'. congruence.
  - intros [H|[H|(first & rest & Hc & HF)]]; auto.
    right. right. destruct (Hwf first rest Hc) as (c & ps & Hct & Hp).
    exists first, rest, c, ps. repeat split; auto.
    apply (HF c ps Hct Hp).
Qed.

(** C5, as the code has it.  For every key, service behaviour and input:
    - the adapter throws the missing-key [Error] exactly when the key is
      absent ([undefined] or empty), and then it has made no network call;
    - it throws the no-image [Error] only when the key is present and the
      call resolved; and for a response whose first candidate, if there is
      one, has its content and parts, it throws it exactly when the
      response has no candidate list, an empty one, or a FIRST candidate
      none of whose parts carries non-empty inline data (later candidates
      are not looked at).  Nothing is said here of a first candidate
      without content or parts;
    - it throws what the service call rejected with exactly when the key
      is present and the call was rejected;
    - the three are different values. *)
Theorem generateAIImage_failure_kinds
    (key : option string) (sdk : string -> GenerateContentParameters -> sdk_result)
    (base64Source prompt : string) (aspectRatio : AspectRatio) :
  (outcome (generateAIImage key sdk base64Source prompt aspectRatio)
     = Abrupt (Error missing_key_message)
   <-> truthy_opt_string key = false) /\
  (truthy_opt_string key = false ->
   network_calls (trace (generateAIImage key sdk base64Source prompt aspectRatio)) = []) /\
  (outcome (generateAIImage key sdk base64Source prompt aspectRatio)
     = Abrupt (Error no_image_message)
   ->
   exists apiKey response,
     key = Some apiKey /\ truthy_string apiKey = true /\
     sdk apiKey (build_request base64Source prompt aspectRatio) = Resolved response) /\
  (forall apiKey response,
     key = Some apiKey -> truthy_string apiKey = true ->
     sdk apiKey (build_request base64Source prompt aspectRatio) = Resolved response ->
     (forall first rest,
        candidates response = Some (first :: rest) ->
        exists c ps, content first = Some c /\ parts c = Some ps) ->
     (outcome (generateAIImage key sdk base64Source prompt aspectRatio)
        = Abrupt (Error no_image_message)
      <->
      (candidates response = None \/ candidates response = Some [] \/
       exists first rest,
         candidates response = Some (first :: rest) /\
         forall c ps, content first = Some c -> parts c = Some ps ->
           Forall (fun q => truthy_opt_string (part_image_data q) = false) ps))) /\
  (forall x,
     outcome (generateAIImage key sdk base64Source prompt aspectRatio)
       = Abrupt (Rejection x)
     <->
     exists apiKey,
       key = Some apiKey /\ truthy_string apiKey = true /\
       sdk apiKey (build_request base64Source prompt aspectRatio) = Rejected x) /\
  (Error missing_key_message <> Error no_image_message /\
   forall x, Rejection x <> Error missing_key_message /\
             Rejection x <> Error no_image_message).
Proof.
  destruct (truthy_opt_string key) eqn:Hk.
  - destruct key as [apiKey|]; [simpl in Hk|discriminate].
    destruct (generateAIImage_with_key apiKey sdk base64Source prompt aspectRatio Hk)
      as [Hout _].
    rewrite Hout. clear Hout.
    destruct (sdk apiKey (build_request base64Source prompt aspectRatio))
      as [response|y] eqn:Hsdk.
    + split; [|split; [|split; [|split; [|split]]]].
      * split; [|discriminate].
        intros H. exfalso. exact (after_response_not_missing_key _ H).
      * discriminate.
      * intros _. exists apiKey, response. auto.
      * intros k r Hkey _ Hr Hwf. injection Hkey as <-.
        rewrite Hsdk in Hr. injection Hr as <-.
        apply no_image_when_well_formed. exact Hwf.
      * intros x. split.
        -- intros H. exfalso. exact (after_response_not_rejection _ _ H).
        -- intros (k & Hkey & _ & Hr). injection Hkey as <-. congruence.
      * repeat split; discriminate.
    + split; [|split; [|split; [|split; [|split]]]].
      * split; discriminate.
      * discriminate.
      * discriminate.
      * intros k r Hkey _ Hr _. injection Hkey as <-. congruence.
      * intros x. split.
        -- intros H. injection H as ->. exists apiKey. auto.
        -- intros (k & Hkey & _ & Hr). injection Hkey as <-. congruence.
      * repeat split; discriminate.
  - destruct (outcome_missing_key key sdk base64Source prompt aspectRatio Hk)
      as [Hout Hnet].
    rewrite Hout. split; [|split; [|split; [|split; [|split]]]].
    + split; auto.
    + auto.
    + discriminate.
    + intros k r -> Ht _ _. simpl in Hk. congruence.
    + intros x. split; [discriminate|].
      intros (k & -> & Ht & _). simpl in Hk. congruence.
    + repeat split; discriminate.
Qed.

(** The theorem at a response with a text-only candidate first: the
    candidate has its content and parts, none of them an image, and the
    no-image error is thrown. *)
Lemma generateAIImage_failure_kinds_witness :
  (forall first rest,
     candidates Samples.text_then_image = Some (first :: rest) ->
     exists c ps, content first = Some c /\ parts c = Some ps) /\
  (outcome (generateAIImage (Some "AIzaSy-test")
              (Samples.always Samples.text_then_image)
              Samples.jpeg_frame "cyberpunk portrait" Ratio_9_16)
     = Abrupt (Error no_image_message)
   <->
   (candidates Samples.text_then_image = None \/
    candidates Samples.text_then_image = Some [] \/
    exists first rest,
      candidates Samples.text_then_image = Some (first :: rest) /\
      forall c ps, content first = Some c -> parts c = Some ps ->
        Forall (fun q => truthy_opt_string (part_image_data q) = false) ps)).
Proof.
  assert (Hwf : forall first rest,
            candidates Samples.text_then_image = Some (first :: rest) ->
            exists c ps, content first = Some c /\ parts c = Some ps).
  { intros first rest H. injection H as <- _.
    exists {| parts := Some [Samples.caption_part] |}, [Samples.caption_part].
    split; reflexivity. }
  split; [exact Hwf|].
  exact (proj1 (proj2 (proj2 (proj2
           (generateAIImage_failure_kinds (Some "AIzaSy-test")
              (Samples.always Samples.text_then_image)
              Samples.jpeg_frame "cyberpunk portrait" Ratio_9_16))))
           "AIzaSy-test" Samples.text_then_image eq_refl eq_refl eq_refl Hwf).
Defined.

(** C5 as the specification words it fails in one direction: the no-image
    error is also thrown for a response that does contain an
    image-bearing candidate, when that candidate is not the first. *)
Lemma no_image_error_despite_image_candidate :
  outcome (generateAIImage (Some "AIzaSy-test") (Samples.always Samples.empty_then_image)
             Samples.jpeg_frame "vintage film" Ratio_16_9)
    = Abrupt (Error no_image_message) /\
  KioskSpec.response_image Samples.empty_then_image = Some "R0lGODlhAQABAAAAACw".
Proof. split; reflexivity. Qed.

End GeminiFailures.

(** ** Capture engine *)

Section CameraCrop.

Import Camera.

Lemma Qgtb_true (a b : Q) : Qgtb a b = true <-> (b < a)%Q.
Proof.
  unfold Qgtb. rewrite negb_true_iff. split.
  - intros H. apply Qnot_le_lt. intros Hle.
    apply Qle_bool_iff in Hle. congruence.
  - intros H. destruct (Qle_bool a b) eqn:E; auto.
    apply Qle_bool_iff in E. exfalso. exact (Qlt_not_le _ _ H E).
Qed.

Lemma Qgtb_false (a b : Q) : Qgtb a b = false <-> (a <= b)%Q.
Proof.
  unfold Qgtb. rewrite negb_false_iff. apply Qle_bool_iff.
Qed.

Lemma target_ratio_positive (o : Orientation) :
  (0 < ratio (targetWidth o) (targetHeight o))%Q.
Proof. destruct o; reflexivity. Qed.

Lemma ratio_lt_cross (W H t : Q) : (0 < H -> t < W / H -> H * t < W)%Q.
Proof.
  intros HH Ht.
  apply (Qmult_lt_r _ _ H HH) in Ht.
  assert (E : (W / H * H == W)%Q) by (field; lra).
  rewrite E in Ht. lra.
Qed.

Lemma ratio_le_cross (W H t : Q) : (0 < H -> W / H <= t -> W <= H * t)%Q.
Proof.
  intros HH Ht.
  apply (Qmult_le_r _ _ H HH) in Ht.
  assert (E : (W / H * H == W)%Q) by (field; lra).
  rewrite E in Ht. lra.
Qed.

Lemma Qhalf (x : Q) : (x / 2 == x * (1 # 2))%Q.
Proof. reflexivity. Qed.

(** The feed is wider than the target: full height, width cut to the
    target ratio, equal margins left and right. *)
Lemma crop_wider (W H t : Q) :
  (0 < H -> 0 < t -> t < W / H ->
   H * t / H == t /\ 0 <= (W - H * t) / 2 /\ (W - H * t) / 2 + H * t <= W /\
   (W - H * t) / 2 + H * t / 2 == W / 2)%Q.
Proof.
  intros HH Ht Hr. pose proof (ratio_lt_cross W H t HH Hr) as Hlt.
  repeat split.
  - field. lra.
  - rewrite Qhalf. lra.
  - rewrite Qhalf. lra.
  - field.
Qed.

(** Otherwise: full width, height cut to the target ratio, equal margins
    above and below. *)
Lemma crop_taller (W H t : Q) :
  (0 < W -> 0 < H -> 0 < t -> W / H <= t ->
   W / (W / t) == t /\ 0 <= (H - W / t) / 2 /\ (H - W / t) / 2 + W / t <= H /\
   (H - W / t) / 2 + W / t / 2 == H / 2)%Q.
Proof.
  intros HW HH Ht Hr. pose proof (ratio_le_cross W H t HH Hr) as Hle.
  assert (Hd : (W / t <= H)%Q).
  { apply Qle_shift_div_r; [exact Ht | lra]. }
  repeat split.
  - field. split; lra.
  - rewrite Qhalf. lra.
  - rewrite Qhalf. lra.
  - field. lra.
Qed.

Lemma inject_Z_pos (z : Z) : (0 < z)%Z -> (0 < inject_Z z)%Q.
Proof. intros H. change 0%Q with (inject_Z 0). rewrite <- Zlt_Qlt. exact H. Qed.

End CameraCrop.

Section CameraCapture.

Import Camera.

(** With exact arithmetic the source rectangle has the target ratio, lies
    inside the feed and is centred in it; it keeps the full height of a
    feed wider than the target and the full width of any other feed. *)
Lemma exact_source_rect (video : HTMLVideoElement) (o : Orientation) :
  (0 < videoWidth video)%Z ->
  (0 < videoHeight video)%Z ->
  exists x y w h : Q,
    source_rect (num := exact) video o = (x, y, w, h) /\
    (let W := inject_Z (videoWidth video) in
     let H := inject_Z (videoHeight video) in
     let t := ratio (targetWidth o) (targetHeight o) in
     w / h == t /\
     (0 <= x /\ 0 <= y /\ x + w <= W /\ y + h <= H) /\
     (x + w / 2 == W / 2 /\ y + h / 2 == H / 2) /\
     (t < ratio (videoWidth video) (videoHeight video) ->
      y == 0 /\ h == H /\ w == H * t) /\
     (ratio (videoWidth video) (videoHeight video) <= t ->
      x == 0 /\ w == W /\ h == W / t))%Q.
Proof.
  intros Hw Hh.
  pose proof (inject_Z_pos _ Hw) as HW. pose proof (inject_Z_pos _ Hh) as HH.
  pose proof (target_ratio_positive o) as Ht.
  unfold source_rect. cbn [num_of_Z num_div num_mul num_sub num_gt exact].
  fold (ratio (videoWidth video) (videoHeight video)).
  fold (ratio (targetWidth o) (targetHeight o)).
  set (t := ratio (targetWidth o) (targetHeight o)) in *.
  set (W := inject_Z (videoWidth video)) in *.
  set (H := inject_Z (videoHeight video)) in *.
  destruct (Qgtb (ratio (videoWidth video) (videoHeight video)) t) eqn:Hcmp.
  - apply Qgtb_true in Hcmp.
    destruct (crop_wider W H t HH Ht Hcmp) as (Hr & Hx & Hfit & Hmid).
    do 4 eexists. split; [reflexivity|]. cbv zeta.
    change (inject_Z 0) with 0%Q. change (inject_Z 2) with 2%Q.
    repeat split; try reflexivity; try assumption; try lra;
      try (intros Hle; exfalso; exact (Qlt_not_le _ _ Hcmp Hle)).
  - apply Qgtb_false in Hcmp.
    destruct (crop_taller W H t HW HH Ht Hcmp) as (Hr & Hy & Hfit & Hmid).
    do 4 eexists. split; [reflexivity|]. cbv zeta.
    change (inject_Z 0) with 0%Q. change (inject_Z 2) with 2%Q.
    repeat split; try reflexivity; try assumption; try lra;
      try (intros Hlt; exfalso; exact (Qlt_not_le _ _ Hlt Hcmp)).
Qed.

Context {N : Type} {num : Number N}.

Variable encode_base64 : string -> Q -> HTMLCanvasElement N -> string.

(** C2.  For a feed of positive native width and height (the video element
    is mounted and the canvas has a 2d context), whatever arithmetic the
    numbers follow, [capture] leaves a canvas whose pixel size is exactly
    the target size, draws onto all of it the source rectangle computed
    from the two ratios, passes the frame to [onCapture] and calls
    [onGenerate].  With exact arithmetic that source rectangle has the
    target ratio, lies inside the feed and is centred; when the feed is
    wider than the target it has the full height of the feed and a reduced
    width, otherwise the full width and a reduced height. *)
Theorem capture_frame_has_target_size
    (video : HTMLVideoElement) (canvas : HTMLCanvasElement N) (o : Orientation) :
  (0 < videoWidth video)%Z ->
  (0 < videoHeight video)%Z ->
  has_2d_context canvas = true ->
  (exists canvas' d,
     capture encode_base64 (Some video) (Some canvas) o =
       (Some canvas',
        [onCapture (toDataURL encode_base64 "image/jpeg" (85 # 100) canvas');
         onGenerate]) /\
     width canvas' = targetWidth o /\ height canvas' = targetHeight o /\
     drawn canvas' = Some d /\
     (dx d, dy d, dWidth d, dHeight d) = (0, 0, targetWidth o, targetHeight o)%Z /\
     (sx d, sy d, sWidth d, sHeight d) = source_rect video o) /\
  (exists x y w h : Q,
     source_rect (num := exact) video o = (x, y, w, h) /\
     (let W := inject_Z (videoWidth video) in
      let H := inject_Z (videoHeight video) in
      let t := ratio (targetWidth o) (targetHeight o) in
      w / h == t /\
      (0 <= x /\ 0 <= y /\ x + w <= W /\ y + h <= H) /\
      (x + w / 2 == W / 2 /\ y + h / 2 == H / 2) /\
      (t < ratio (videoWidth video) (videoHeight video) ->
       y == 0 /\ h == H /\ w == H * t) /\
      (ratio (videoWidth video) (videoHeight video) <= t ->
       x == 0 /\ w == W /\ h == W / t))%Q).
Proof.
  intros Hw Hh Hctx. split; [|exact (exact_source_rect video o Hw Hh)].
  unfold capture. rewrite Hctx.
  destruct (source_rect video o) as [[[x y] w] h].
  do 2 eexists. repeat split.
Qed.

End CameraCapture.

Section CameraTarget.

Import Camera.

(** The theorem at a 1920 by 1080 feed, portrait, binary64 arithmetic. *)
Lemma capture_frame_has_target_size_witness :
  ((0 < videoWidth Samples.webcam)%Z /\
   (0 < videoHeight Samples.webcam)%Z /\
   has_2d_context Samples.blank_canvas = true) /\
  (exists canvas' d,
     capture Samples.fixed_encoder (Some Samples.webcam)
       (Some Samples.blank_canvas) portrait =
       (Some canvas',
        [onCapture (toDataURL Samples.fixed_encoder "image/jpeg" (85 # 100) canvas');
         onGenerate]) /\
     width canvas' = 768%Z /\ height canvas' = 1344%Z /\
     drawn canvas' = Some d /\
     (dx d, dy d, dWidth d, dHeight d) = (0, 0, 768, 1344)%Z /\
     (sx d, sy d, sWidth d, sHeight d) =
       source_rect (num := binary64) Samples.webcam portrait) /\
  (exists x y w h : Q,
     source_rect (num := exact) Samples.webcam portrait = (x, y, w, h) /\
     (let W := inject_Z 1920 in
      let H := inject_Z 1080 in
      let t := ratio 768 1344 in
      w / h == t /\
      (0 <= x /\ 0 <= y /\ x + w <= W /\ y + h <= H) /\
      (x + w / 2 == W / 2 /\ y + h / 2 == H / 2) /\
      (t < ratio 1920 1080 -> y == 0 /\ h == H /\ w == H * t) /\
      (ratio 1920 1080 <= t -> x == 0 /\ w == W /\ h == W / t))%Q).
Proof.
  split; [repeat split|].
  apply (capture_frame_has_target_size Samples.fixed_encoder
           Samples.webcam Samples.blank_canvas portrait); reflexivity.
Defined.

(** The browser's arithmetic on the sample feed: a 1920 by 1080 feed in
    portrait is cut to 617.14... by 1080 pixels starting 651.42... pixels
    from the left; in landscape to 1890 by 1080 starting 15 pixels from
    the left. *)
Example source_rect_binary64_portrait :
  source_rect (num := binary64) Samples.webcam portrait =
  (0x1.45b6db6db6db7p+9, 0, 0x1.3492492492492p+9, 1080)%float.
Proof. reflexivity. Qed.

Example source_rect_binary64_landscape :
  source_rect (num := binary64) Samples.webcam landscape =
  (15, 0, 1890, 1080)%float.
Proof. reflexivity. Qed.

(** C3, as the code has it.  The target size is 768 by 1344 pixels in
    portrait and 1344 by 768 in landscape, so the target ratio is exactly
    4:7 and 7:4: the sizes the image model documents for its "9:16" and
    "16:9" settings, which differ from 9/16 by 1/112 and from 16/9 by
    1/36. *)
Theorem target_ratio_is_4_7_or_7_4 (o : Orientation) :
  (targetWidth o, targetHeight o) =
    (if isPortrait o then (768, 1344) else (1344, 768))%Z /\
  (ratio (targetWidth o) (targetHeight o) ==
     if isPortrait o then 4 # 7 else 7 # 4)%Q /\
  (ratio (targetWidth o) (targetHeight o) -
     (if isPortrait o then 9 # 16 else 16 # 9) ==
   if isPortrait o then 1 # 112 else - (1 # 36))%Q.
Proof. destruct o; repeat split. Qed.

(** C3 as the specification words it fails: in neither orientation is the
    target ratio 9:16 or 16:9. *)
Lemma target_ratio_not_9_16 :
  ~ (ratio (targetWidth portrait) (targetHeight portrait) == 9 # 16)%Q /\
  ~ (ratio (targetWidth landscape) (targetHeight landscape) == 16 # 9)%Q.
Proof. split; intros H; vm_compute in H; discriminate. Qed.

End CameraTarget.

(** ** Countdown *)

Section Countdown.

Import Camera.

Context {N : Type} {num : Number N}.

Variable encode_base64 : string -> Q -> HTMLCanvasElement N -> string.

Lemma run_snoc (s : State N) (es : list event) (e : event) :
  run encode_base64 s (es ++ [e]) = step encode_base64 (run encode_base64 s es) e.
Proof. unfold Camera.run. rewrite fold_left_app. reflexivity. Qed.

Lemma find_interval_fresh (s : State N) (i : Interval) :
  handles_fresh s ->
  handle i = next_handle s ->
  find (fun j => Nat.eqb (handle j) (handle i)) (intervals s ++ [i]) = Some i.
Proof.
  unfold handles_fresh. intros Hf Hi.
  induction (intervals s) as [|j js IH]; simpl.
  - rewrite Nat.eqb_refl. reflexivity.
  - apply Forall_cons_iff in Hf. destruct Hf as [Hj Hjs].
    destruct (Nat.eqb (handle j) (handle i)) eqn:E.
    + apply Nat.eqb_eq in E. lia.
    + apply IH. exact Hjs.
Qed.

Lemma find_interval_handle (s : State N) (h : nat) (i : Interval) :
  find_interval h s = Some i -> handle i = h /\ In i (intervals s).
Proof.
  unfold find_interval. intros H. apply find_some in H.
  destruct H as [Hin Heq]. apply Nat.eqb_eq in Heq. auto.
Qed.

Lemma run_capture_intervals (o : Orientation) (s : State N) :
  intervals (run_capture encode_base64 o s) = intervals s.
Proof.
  unfold run_capture.
  destruct (capture encode_base64 (videoRef s) (canvasRef s) o). reflexivity.
Qed.

(** No event disarms a timer, except the tick of that very timer that
    finds the counter at 1. *)
Lemma timer_survives (s : State N) (e : event) (i : Interval) :
  In i (intervals s) ->
  (e = Tick (handle i) -> countdown s <> Some 1%Z) ->
  In i (intervals (step encode_base64 s e)).
Proof.
  intros Hin Hnot. destruct e as [m w h| | | |h|o|]; simpl; auto.
  - apply in_or_app. left. exact Hin.
  - destruct (find_interval h s) as [j|] eqn:Hf; auto.
    apply find_interval_handle in Hf. destruct Hf as [Hj _].
    unfold interval_callback.
    destruct (countdown s) as [[|[p|p|]|p]|] eqn:Hc; simpl; auto.
    rewrite run_capture_intervals. simpl.
    apply filter_In. split; [exact Hin|].
    apply negb_true_iff. apply Nat.eqb_neq. intros Heq.
    apply Hnot; [|reflexivity]. congruence.
  - destruct (Bool.eqb (isPortrait o) (isPortrait (orientation s))); auto.
Qed.

(** The handles of the armed timers stay below the next handle. *)
Lemma handles_fresh_step (s : State N) (e : event) :
  handles_fresh s -> handles_fresh (step encode_base64 s e).
Proof.
  unfold handles_fresh. intros Hf.
  destruct e as [m w h| | | |h|o|]; simpl; auto.
  - apply Forall_app. split.
    + eapply Forall_impl; [exact Hf|]. simpl. intros; lia.
    + constructor; [simpl; lia|constructor].
  - destruct (find_interval h s) as [j|]; auto.
    unfold interval_callback.
    destruct (countdown s) as [[|[p|p|]|p]|]; simpl; auto.
    unfold run_capture.
    destruct (capture encode_base64 _ _ _). simpl.
    apply List.Forall_forall. intros x Hx. apply filter_In in Hx.
    destruct Hx as [Hx _]. rewrite List.Forall_forall in Hf. apply Hf. exact Hx.
  - destruct (Bool.eqb (isPortrait o) (isPortrait (orientation s))); auto.
Qed.

Lemma handles_fresh_run (s : State N) (es : list event) :
  handles_fresh s -> handles_fresh (run encode_base64 s es).
Proof.
  revert s. induction es as [|e es IH]; intros s Hf; simpl; auto.
  apply IH. apply handles_fresh_step. exact Hf.
Qed.

Lemma handles_fresh_mount (o : Orientation) (captured : option string) :
  handles_fresh (mount (N := N) o captured).
Proof. constructor. Qed.

(** A tick that finds the counter at [n], neither 0 nor 1, only writes
    [n - 1] into the counter. *)
Lemma tick_decrements (s : State N) (h : nat) (i : Interval) (n : Z) :
  find_interval h s = Some i ->
  countdown s = Some n -> n <> 0%Z -> n <> 1%Z ->
  step encode_base64 s (Tick h) = set_countdown (Some (n - 1)%Z) s.
Proof.
  intros Hf Hc H0 H1. simpl. rewrite Hf. unfold interval_callback. rewrite Hc.
  destruct n as [|[p|p|]|p]; try congruence; reflexivity.
Qed.

(** The tick that finds the counter at 1 disarms its timer and runs
    [capture]. *)
Lemma tick_at_one (s : State N) (h : nat) (i : Interval) :
  find_interval h s = Some i ->
  countdown s = Some 1%Z ->
  step encode_base64 s (Tick h) =
  set_countdown None (run_capture encode_base64 (closure_orientation i)
                        (clearInterval (handle i) s)).
Proof.
  intros Hf Hc. simpl. rewrite Hf. unfold interval_callback. rewrite Hc.
  reflexivity.
Qed.

End Countdown.

Section CountdownRun.

Import Camera.

Context {N : Type} {num : Number N}.

Variable encode_base64 : string -> Q -> HTMLCanvasElement N -> string.

Lemma count_ticks_snoc (h : nat) (es : list event) (e : event) :
  count_ticks h (es ++ [e]) =
  (count_ticks h es + if is_tick h e then 1 else 0)%nat.
Proof.
  unfold count_ticks. rewrite List.filter_app, length_app. simpl.
  destruct (is_tick h e); reflexivity.
Qed.

Lemma count_backs_snoc (es : list event) (e : event) :
  count_backs (es ++ [e]) = (count_backs es + if is_back e then 1 else 0)%nat.
Proof.
  unfold count_backs. rewrite List.filter_app, length_app. simpl.
  destruct (is_back e); reflexivity.
Qed.

Lemma repeat_snoc {A} (x : A) (n : nat) : repeat x (n + 1) = repeat x n ++ [x].
Proof.
  induction n as [|n IH]; simpl; [reflexivity|]. rewrite IH. reflexivity.
Qed.

(** While fewer than three ticks of the new timer have happened, with
    only BACK pressed in between, the page is as [startCountdown] left
    it, except for the counter and the record of [onBack] calls. *)
Lemma counting_invariant (s : State N) (es : list event) :
  handles_fresh s ->
  Forall (fun e => e = ClickBack \/ e = Tick (next_handle s)) es ->
  (count_ticks (next_handle s) es < 3)%nat ->
  let s' := run encode_base64 (startCountdown s) es in
  intervals s' = intervals s ++
    [{| handle := next_handle s; closure_orientation := orientation s |}] /\
  countdown s' = Some (3 - Z.of_nat (count_ticks (next_handle s) es))%Z /\
  capturedImage s' = capturedImage s /\
  live s' = live s /\ stream s' = stream s /\
  videoRef s' = videoRef s /\ canvasRef s' = canvasRef s /\
  calls s' = calls s ++ repeat onBack (count_backs es).
Proof.
  intros Hfresh. induction es as [|e es IH] using rev_ind; intros Hall Hlt.
  - simpl. repeat split; auto. rewrite app_nil_r. reflexivity.
  - apply Forall_app in Hall. destruct Hall as [Hes He].
    apply Forall_inv in He.
    rewrite count_ticks_snoc in Hlt |- *. rewrite count_backs_snoc.
    cbv zeta. rewrite run_snoc.
    assert (Hlt' : (count_ticks (next_handle s) es < 3)%nat) by lia.
    specialize (IH Hes Hlt'). cbv zeta in IH.
    destruct IH as (Hi & Hc & Hci & Hl & Hst & Hv & Hcv & Hcalls).
    set (s' := run encode_base64 (startCountdown s) es) in *.
    destruct He as [-> | ->].
    + simpl. rewrite Nat.add_0_r, repeat_snoc, Hcalls, app_assoc.
      repeat split; auto.
    + simpl is_tick in *. rewrite Nat.eqb_refl in *. simpl is_back.
      rewrite Nat.add_0_r.
      assert (Hf : find_interval (next_handle s) s' =
                   Some {| handle := next_handle s;
                           closure_orientation := orientation s |}).
      { unfold find_interval. rewrite Hi.
        apply (find_interval_fresh s
                 {| handle := next_handle s;
                    closure_orientation := orientation s |} Hfresh eq_refl). }
      rewrite (tick_decrements encode_base64 s' _ _ _ Hf Hc) by lia.
      simpl. repeat split; auto. f_equal. lia.
Qed.

(** C4, as the code has it.  After [startCountdown], while the new timer
    has ticked fewer than three times and whatever number of times BACK
    was pressed in between: the timer is still armed; the counter shows 3
    minus the number of ticks; BACK is the only control rendered, and no
    event whatever (a press, another timer, unmounting) disarms the timer
    short of its own third tick; the stream, the video and the
    canvas are untouched and no frame has been passed to [onCapture];
    and once two ticks have happened the next one disarms the
    timer and runs [capture].  The page has no operation that cancels a
    countdown. *)
Theorem countdown_has_no_cancel (s : State N) (es : list event) :
  handles_fresh s ->
  Forall (fun e => e = ClickBack \/ e = Tick (next_handle s)) es ->
  (count_ticks (next_handle s) es < 3)%nat ->
  let timer := {| handle := next_handle s; closure_orientation := orientation s |} in
  let s' := run encode_base64 (startCountdown s) es in
  (In timer (intervals s') /\
   countdown s' = Some (3 - Z.of_nat (count_ticks (next_handle s) es))%Z) /\
  (rendered s' = [BackButton] /\
   forall e, (e = Tick (next_handle s) ->
              count_ticks (next_handle s) es <> 2%nat) ->
             In timer (intervals (step encode_base64 s' e))) /\
  (live s' = live s /\ stream s' = stream s /\
   videoRef s' = videoRef s /\ canvasRef s' = canvasRef s /\
   calls s' = calls s ++ repeat onBack (count_backs es)) /\
  (count_ticks (next_handle s) es = 2%nat ->
   step encode_base64 s' (Tick (next_handle s)) =
   set_countdown None
     (run_capture encode_base64 (orientation s)
        (clearInterval (next_handle s) s'))).
Proof.
  intros Hfresh Hall Hlt. cbv zeta.
  destruct (counting_invariant s es Hfresh Hall Hlt)
    as (Hi & Hc & Hci & Hl & Hst & Hv & Hcv & Hcalls).
  set (s' := run encode_base64 (startCountdown s) es) in *.
  set (timer := {| handle := next_handle s; closure_orientation := orientation s |}) in *.
  assert (Hin : In timer (intervals s')).
  { rewrite Hi. apply in_or_app. right. left. reflexivity. }
  assert (Hr : rendered s' = [BackButton]).
  { unfold rendered. rewrite Hc.
    replace (truthy_countdown _) with true.
    - destruct (capturedImage s'); reflexivity.
    - simpl. symmetry. apply negb_true_iff. apply Z.eqb_neq. lia. }
  repeat split; auto.
  - intros e He. apply (timer_survives encode_base64 s' e timer Hin).
    intros Heq. specialize (He Heq). rewrite Hc. intros H1.
    injection H1 as H1. lia.
  - intros H2.
    assert (Hf : find_interval (next_handle s) s' = Some timer).
    { unfold find_interval. rewrite Hi.
      apply (find_interval_fresh s timer Hfresh eq_refl). }
    rewrite H2 in Hc.
    apply (tick_at_one encode_base64 s' _ timer Hf Hc).
Qed.

End CountdownRun.

Section CountdownExamples.

Import Camera.

(** The theorem at a page with the camera granted: two ticks with a
    press of BACK in between. *)
Lemma countdown_has_no_cancel_witness :
  let s := Samples.ready_page in
  let es := [Tick 0; ClickBack; Tick 0] in
  (handles_fresh s /\
   Forall (fun e => e = ClickBack \/ e = Tick (next_handle s)) es /\
   (count_ticks (next_handle s) es < 3)%nat) /\
  let timer := {| handle := next_handle s; closure_orientation := orientation s |} in
  let s' := run Samples.fixed_encoder (startCountdown s) es in
  (In timer (intervals s') /\
   countdown s' = Some (3 - Z.of_nat (count_ticks (next_handle s) es))%Z) /\
  (rendered s' = [BackButton] /\
   forall e, (e = Tick (next_handle s) ->
              count_ticks (next_handle s) es <> 2%nat) ->
             In timer (intervals (step Samples.fixed_encoder s' e))) /\
  (live s' = live s /\ stream s' = stream s /\
   videoRef s' = videoRef s /\ canvasRef s' = canvasRef s /\
   calls s' = calls s ++ repeat onBack (count_backs es)) /\
  (count_ticks (next_handle s) es = 2%nat ->
   step Samples.fixed_encoder s' (Tick (next_handle s)) =
   set_countdown None
     (run_capture Samples.fixed_encoder (orientation s)
        (clearInterval (next_handle s) s'))).
Proof.
  assert (H1 : handles_fresh (Samples.ready_page))
    by constructor.
  assert (H2 : Forall (fun e => e = ClickBack \/
                    e = Tick (next_handle (Samples.ready_page)))
                 [Tick 0; ClickBack; Tick 0])
    by (repeat constructor; auto).
  assert (H3 : (count_ticks (next_handle (Samples.ready_page))
                  [Tick 0; ClickBack; Tick 0] < 3)%nat)
    by (vm_compute; lia).
  exact (conj (conj H1 (conj H2 H3))
           (countdown_has_no_cancel Samples.fixed_encoder
              (Samples.ready_page)
              [Tick 0; ClickBack; Tick 0] H1 H2 H3)).
Defined.

(** C4 as the specification words it fails: with the countdown at 3, and
    again at 2, no event at all (no control of the page, no tick, not
    even unmounting) leaves the page without its armed timer. *)
Lemma countdown_cannot_be_cancelled :
  ~ (exists e, intervals (step Samples.fixed_encoder
                            (Samples.counting_page) e) = []) /\
  ~ (exists e, intervals (step Samples.fixed_encoder
                            (run Samples.fixed_encoder
                               (Samples.counting_page)
                               [Tick 0]) e) = []).
Proof.
  split; intros [e H]; destruct e as [m w h| | | |h|o|]; simpl in H;
    try discriminate.
  - destruct h as [|h]; simpl in H; discriminate.
  - destruct o; simpl in H; discriminate.
  - destruct h as [|h]; simpl in H; discriminate.
  - destruct o; simpl in H; discriminate.
Qed.

End CountdownExamples.

(** ** The camera stream *)

Section CameraStream.

Import Camera.

Context {N : Type} {num : Number N}.

Variable encode_base64 : string -> Q -> HTMLCanvasElement N -> string.

Lemma interval_callback_keeps_stream (i : Interval) (s : State N) :
  live (interval_callback encode_base64 i s) = live s /\
  cleanup_stream (interval_callback encode_base64 i s) = cleanup_stream s.
Proof.
  unfold interval_callback.
  destruct (countdown s) as [[|[p|p|]|p]|]; simpl; auto.
  unfold run_capture.
  destruct (capture encode_base64 _ _ _) as [canvas' cs]. simpl. auto.
Qed.

(** Without a change of orientation the clean-up function of the effect
    is the one of the first render, which sees [stream = null]; nothing
    ever stops a track. *)
Lemma step_without_orientation_change (s : State N) (e : event) :
  is_orientation_change e = false ->
  cleanup_stream s = None ->
  cleanup_stream (step encode_base64 s e) = None /\
  forall m, In m (live s) -> In m (live (step encode_base64 s e)).
Proof.
  intros He Hc. destruct e as [m' w h| | | |h|o|]; simpl in *;
    try discriminate.
  - split; [assumption|]. intros m Hm. right. exact Hm.
  - split; [assumption|auto].
  - split; [assumption|auto].
  - split; [assumption|auto].
  - destruct (find_interval h s) as [i|]; [|auto].
    destruct (interval_callback_keeps_stream i s) as [Hl Hcs].
    rewrite Hl, Hcs. auto.
  - rewrite Hc. simpl. auto.
Qed.

Lemma run_without_orientation_change (s : State N) (es : list event) :
  forallb (fun e => negb (is_orientation_change e)) es = true ->
  cleanup_stream s = None ->
  cleanup_stream (run encode_base64 s es) = None /\
  forall m, In m (live s) \/ In m (granted es) ->
            In m (live (run encode_base64 s es)).
Proof.
  revert s. induction es as [|e es IH]; intros s Hes Hc; simpl in *.
  - split; [assumption|]. intros m [H|[]]. exact H.
  - apply andb_true_iff in Hes. destruct Hes as [He Hes].
    apply negb_true_iff in He.
    destruct (step_without_orientation_change s e He Hc) as [Hc' Hl'].
    destruct (IH (step encode_base64 s e) Hes Hc') as [Hc'' Hl''].
    split; [assumption|].
    intros m [Hm|Hm]; apply Hl''.
    + left. apply Hl'. exact Hm.
    + apply in_app_or in Hm. destruct Hm as [Hm|Hm]; [|right; exact Hm].
      left. destruct e; simpl in Hm; try contradiction.
      destruct Hm as [<-|[]]. simpl. left. reflexivity.
Qed.

(** X5.  Every stream the page was granted is still live at the end of any run
    that keeps the orientation, whichever way the page is left. *)
Lemma granted_streams_stay_live
    (o : Orientation) (captured : option string) (es : list event) (m : MediaStream) :
  forallb (fun e => negb (is_orientation_change e)) es = true ->
  In m (granted es) ->
  In m (live (run encode_base64 (mount o captured) es)).
Proof.
  intros Hes Hm.
  destruct (run_without_orientation_change (mount o captured) es Hes eq_refl)
    as [_ H].
  apply H. right. exact Hm.
Qed.

End CameraStream.

Section CameraStreamExamples.

Import Camera.

(** C6 on the code: the stream granted to the page is still live after the
    page has been left, on each way out: navigating away, BACK during a
    countdown, and a completed capture.  The clean-up function registered
    by the effect closes over the [stream] of the first render, which is
    [null]. *)
Theorem stream_outlives_camera_page :
  live (run Samples.fixed_encoder (mount portrait None)
          [GetUserMediaResolves 0 1920 1080; Unmount]) = [0%nat] /\
  live (run Samples.fixed_encoder (mount portrait None)
          [GetUserMediaResolves 0 1920 1080; ClickShutter; Tick 0;
           ClickBack; Unmount]) = [0%nat] /\
  (let s := run Samples.fixed_encoder (mount portrait None)
              [GetUserMediaResolves 0 1920 1080; ClickShutter;
               Tick 0; Tick 0; Tick 0; Unmount] in
   live s = [0%nat] /\
   calls s = [onCapture "data:image/jpeg;base64,/9j/4AAQSkZJRg"; onGenerate]) /\
  cleanup_stream (run Samples.fixed_encoder (mount portrait None)
                    [GetUserMediaResolves 0 1920 1080]) = None /\
  stream (run Samples.fixed_encoder (mount portrait None)
            [GetUserMediaResolves 0 1920 1080]) = Some 0%nat.
Proof. repeat split. Qed.

End CameraStreamExamples.

(** ** Declared encoding of the transmitted frame *)

Section FrameEncoding.

Import Gemini.

Lemma prefix_append (p s : string) : String.prefix p (p +:+ s) = true.
Proof.
  induction p as [|c p IH]; simpl.
  - destruct s; reflexivity.
  - destruct (Ascii.ascii_dec c c) as [_|Hne]; [exact IH|congruence].
Qed.

Lemma split_comma_free (s : string) :
  comma_free s = true -> split_comma s = [s].
Proof.
  induction s as [|c s IH]; simpl; [reflexivity|].
  intros H. apply andb_true_iff in H. destruct H as [Hc Hs].
  apply negb_true_iff in Hc. rewrite Hc, (IH Hs). reflexivity.
Qed.

Lemma split_comma_append (a b : string) :
  comma_free a = true ->
  split_comma (a +:+ "," +:+ b) = a :: split_comma b.
Proof.
  induction a as [|c a IH]; simpl; [reflexivity|].
  intros H. apply andb_true_iff in H. destruct H as [Hc Ha].
  apply negb_true_iff in Hc. rewrite Hc, (IH Ha). reflexivity.
Qed.

(** A data URL whose header and payload hold no comma splits into the
    header and the payload. *)
Lemma data_url_payload (header payload : string) :
  comma_free header = true -> comma_free payload = true ->
  nth_error (split_comma (header +:+ "," +:+ payload)) 1 = Some payload.
Proof.
  intros Hh Hp. rewrite (split_comma_append _ _ Hh), (split_comma_free _ Hp).
  reflexivity.
Qed.

Lemma network_calls_of_generateAIImage key sdk src prompt ar :
  network_calls (trace (generateAIImage key sdk src prompt ar)) =
  if truthy_opt_string key then [build_request src prompt ar] else [].
Proof.
  destruct (truthy_opt_string key) eqn:Hk.
  - destruct key as [apiKey|]; [simpl in Hk|discriminate].
    apply (generateAIImage_with_key apiKey sdk src prompt ar Hk).
  - rewrite (generateAIImage_missing_key key sdk src prompt ar Hk). reflexivity.
Qed.

Lemma after_response_prefix (response : GenerateContentResponse) :
  match after_response response with
  | Normal s => String.prefix png_data_url_prefix s = true
  | Abrupt _ => True
  end.
Proof.
  unfold after_response.
  destruct (candidates response) as [[|first rest]|]; auto.
  destruct (content first) as [c|]; auto.
  destruct (parts c) as [ps|]; auto.
  destruct (first_inline_data ps); auto.
  apply prefix_append.
Qed.

Context {N : Type} {num : Camera.Number N}.

Variable encode_base64 : string -> Q -> Camera.HTMLCanvasElement N -> string.

(** C9.  Every request [generateAIImage] sends declares its one inline
    image as "image/png", whatever the source string is, and every value
    it returns starts with "data:image/png;base64,".  The frames that
    [capture] hands to [onCapture] start with "data:image/jpeg;base64,";
    given such a frame (with comma-free payload) the adapter transmits the
    JPEG payload under the PNG declaration. *)
Theorem generateAIImage_declares_png
    (key : option string) (sdk : string -> GenerateContentParameters -> sdk_result)
    (base64Source prompt : string) (aspectRatio : AspectRatio) :
  Forall (fun request => declared_mime_types request = [Some "image/png"])
    (network_calls (trace (generateAIImage key sdk base64Source prompt aspectRatio))) /\
  match outcome (generateAIImage key sdk base64Source prompt aspectRatio) with
  | Normal s => String.prefix "data:image/png;base64," s = true
  | Abrupt _ => True
  end /\
  (forall video canvas o,
     Forall (fun image => String.prefix "data:image/jpeg;base64," image = true)
       (Camera.captured_frames
          (snd (Camera.capture encode_base64 video canvas o)))) /\
  (forall payload apiKey,
     comma_free payload = true -> truthy_string apiKey = true ->
     Forall (fun request =>
               declared_mime_types request = [Some "image/png"] /\
               transmitted_data request = [Some payload])
       (network_calls
          (trace (generateAIImage (Some apiKey) sdk
                    ("data:image/jpeg;base64," +:+ payload) prompt aspectRatio))) /\
     network_calls
       (trace (generateAIImage (Some apiKey) sdk
                 ("data:image/jpeg;base64," +:+ payload) prompt aspectRatio)) <> []).
Proof.
  split; [|split; [|split]].
  - rewrite network_calls_of_generateAIImage.
    destruct (truthy_opt_string key); repeat constructor.
  - destruct (truthy_opt_string key) eqn:Hk.
    + destruct key as [apiKey|]; [simpl in Hk|discriminate].
      destruct (generateAIImage_with_key apiKey sdk base64Source prompt aspectRatio Hk)
        as [-> _].
      destruct (sdk apiKey _); [apply after_response_prefix|exact I].
    + rewrite (generateAIImage_missing_key key sdk base64Source prompt aspectRatio Hk).
      exact I.
  - intros video canvas o. unfold Camera.capture.
    destruct video as [video|]; [|constructor].
    destruct canvas as [canvas|]; [|constructor].
    destruct (Camera.has_2d_context canvas); [|constructor].
    destruct (Camera.source_rect video o) as [[[x y] w] h]. simpl.
    repeat constructor.
    exact (prefix_append "data:image/jpeg;base64," _).
  - intros payload apiKey Hp Hk.
    rewrite network_calls_of_generateAIImage.
    cbn [truthy_opt_string]. rewrite Hk.
    split; [|discriminate].
    constructor; [|constructor]. split; [reflexivity|].
    unfold transmitted_data, build_request.
    cbn [parts contents flat_map inlineData data app].
    change ("data:image/jpeg;base64," +:+ payload)
      with ("data:image/jpeg;base64" +:+ "," +:+ payload).
    rewrite (data_url_payload "data:image/jpeg;base64" payload eq_refl Hp).
    reflexivity.
Qed.

End FrameEncoding.

(** ** Admin page *)

Section AdminLogin.

Import Admin.

Variable DEFAULT_GAS_URL : string.
Variable settings : PhotoboothSettings.
Variable concepts : list Concept.

(** C7.  From the unauthenticated state, [handleLogin] authenticates
    exactly when the typed PIN equals [settings.adminPin].  A failed
    attempt leaves the page unauthenticated, clears the typed PIN, shows
    one alert and changes nothing else: the edited settings and concepts,
    [localStorage] and the application's settings are untouched.  A newly
    mounted page is unauthenticated. *)
Theorem handleLogin_checks_pin (w : World) :
  isAuthenticated (page w) = false ->
  (isAuthenticated (page (handleLogin settings w)) = true
   <-> pin (page w) = adminPin settings) /\
  (pin (page w) <> adminPin settings ->
   isAuthenticated (page (handleLogin settings w)) = false /\
   page (handleLogin settings w) = setPin "" (page w) /\
   localSettings (page (handleLogin settings w)) = localSettings (page w) /\
   localConcepts (page (handleLogin settings w)) = localConcepts (page w) /\
   localStorage (handleLogin settings w) = localStorage w /\
   effects (handleLogin settings w) = effects w ++ [alert "INVALID SECURITY PIN"]) /\
  (forall storage,
     isAuthenticated (page (mount DEFAULT_GAS_URL settings concepts storage))
     = false).
Proof.
  intros Hun. unfold handleLogin.
  destruct (String.eqb_spec (pin (page w)) (adminPin settings)) as [Heq|Hne];
    simpl.
  - split; [split; auto|]. split; [intros Hne; contradiction|reflexivity].
  - rewrite Hun. split; [split; [discriminate|contradiction]|].
    split; [intros _; repeat split; auto|reflexivity].
Qed.

End AdminLogin.

Section AdminLoginExample.

Import Admin.

(** The theorem at the scenario of the specification: "0000" typed
    against the configured PIN "1234". *)
Lemma handleLogin_checks_pin_witness :
  let w := Samples.pin_typed "0000" in
  let settings := Samples.kiosk_settings in
  isAuthenticated (page w) = false /\
  (isAuthenticated (page (handleLogin settings w)) = true
   <-> pin (page w) = adminPin settings) /\
  (pin (page w) <> adminPin settings ->
   isAuthenticated (page (handleLogin settings w)) = false /\
   page (handleLogin settings w) = setPin "" (page w) /\
   localSettings (page (handleLogin settings w)) = localSettings (page w) /\
   localConcepts (page (handleLogin settings w)) = localConcepts (page w) /\
   localStorage (handleLogin settings w) = localStorage w /\
   effects (handleLogin settings w) = effects w ++ [alert "INVALID SECURITY PIN"]) /\
  (forall storage,
     isAuthenticated (page (mount "" settings [] storage)) = false).
Proof.
  exact (conj eq_refl
           (handleLogin_checks_pin "" Samples.kiosk_settings []
              (Samples.pin_typed "0000") eq_refl)).
Defined.

End AdminLoginExample.

Section AdminSave.

Import Admin.

Variable settings : PhotoboothSettings.

(** C8.  When the remote save reports not-ok, [handleSaveSettings] and the
    handler of SYNC ALL CONCEPTS leave every state cell of the page as it
    was, the edited settings and concepts among them, and make no call to
    [onSaveSettings] or [onSaveConcepts]: the only effects are the write
    of the base URL (settings only) and the remote call itself. *)
Theorem failed_save_keeps_edits (w : World) :
  (page (handleSaveSettings settings false w) = page w /\
   localSettings (page (handleSaveSettings settings false w)) = localSettings (page w) /\
   localConcepts (page (handleSaveSettings settings false w)) = localConcepts (page w) /\
   effects (handleSaveSettings settings false w) =
     effects w ++
     [localStorage_setItem APPS_SCRIPT_BASE_URL (gasUrl (page w));
      saveSettingsToGas (localSettings (page w)) (adminPin settings)] /\
   List.filter commits (effects (handleSaveSettings settings false w)) =
     List.filter commits (effects w)) /\
  (page (handleSyncConcepts settings false w) = page w /\
   localSettings (page (handleSyncConcepts settings false w)) = localSettings (page w) /\
   localConcepts (page (handleSyncConcepts settings false w)) = localConcepts (page w) /\
   localStorage (handleSyncConcepts settings false w) = localStorage w /\
   effects (handleSyncConcepts settings false w) =
     effects w ++
     [saveConceptsToGas (localConcepts (page w)) (adminPin settings)] /\
   List.filter commits (effects (handleSyncConcepts settings false w)) =
     List.filter commits (effects w)).
Proof.
  unfold handleSaveSettings, handleSyncConcepts. simpl.
  repeat split; rewrite List.filter_app; simpl; apply app_nil_r.
Qed.

(** C10.  Whatever the remote save answers, [handleSaveSettings] first
    writes the current base URL under "APPS_SCRIPT_BASE_URL" and only then
    calls the remote store; afterwards the stored value is the current
    base URL, also when the save failed, and no other key has changed. *)
Theorem handleSaveSettings_stores_base_url_first (ok : bool) (w : World) :
  localStorage (handleSaveSettings settings ok w) !! APPS_SCRIPT_BASE_URL
    = Some (gasUrl (page w)) /\
  (forall key, key <> APPS_SCRIPT_BASE_URL ->
     localStorage (handleSaveSettings settings ok w) !! key = localStorage w !! key) /\
  (exists later,
     effects (handleSaveSettings settings ok w) =
       effects w ++
       localStorage_setItem APPS_SCRIPT_BASE_URL (gasUrl (page w)) ::
       saveSettingsToGas (localSettings (page w)) (adminPin settings) :: later /\
     later = if ok
             then [onSaveSettings (localSettings (page w));
                   alert "Settings saved and synced to cloud"]
             else []).
Proof.
  unfold handleSaveSettings. simpl. split; [|split].
  - apply lookup_insert_eq.
  - intros key Hne. apply lookup_insert_ne. congruence.
  - destruct ok; eexists; split; try reflexivity.
    rewrite <- app_assoc. reflexivity.
Qed.

End AdminSave.

(** * Further properties of the code *)

(** ** Generation adapter: effects and the source string *)

Section GeminiEffects.

Import Gemini.

(** X1.  The effects of [generateAIImage], in order: one service call exactly
    when the key is present, made before anything is logged and never
    repeated, whatever the call leads to; then, when the function throws,
    one [console.error] carrying exactly the value that is thrown.  A
    successful call logs nothing. *)
Theorem generateAIImage_trace
    (key : option string) (sdk : string -> GenerateContentParameters -> sdk_result)
    (base64Source prompt : string) (aspectRatio : AspectRatio) :
  trace (generateAIImage key sdk base64Source prompt aspectRatio) =
  match key with
  | Some apiKey =>
      if truthy_string apiKey
      then [GenerateContent apiKey (build_request base64Source prompt aspectRatio)]
      else []
  | None => []
  end ++
  match outcome (generateAIImage key sdk base64Source prompt aspectRatio) with
  | Abrupt e => [ConsoleError "Gemini Generation Error:" e]
  | Normal _ => []
  end.
Proof.
  unfold generateAIImage. destruct key as [apiKey|]; [|reflexivity].
  destruct (truthy_string apiKey); [|reflexivity]. simpl.
  unfold mbind, Js_bind, bind, await_generateContent.
  destruct (sdk apiKey (build_request base64Source prompt aspectRatio))
    as [response|x]; [|reflexivity].
  destruct (candidates response) as [[|first rest]|]; try reflexivity.
  destruct (content first) as [c|]; try reflexivity.
  destruct (parts c) as [ps|]; try reflexivity.
  destruct (first_inline_data ps); reflexivity.
Qed.

Lemma split_comma_second (a b c : string) :
  comma_free a = true -> comma_free b = true ->
  nth_error (split_comma (a +:+ "," +:+ b +:+ "," +:+ c)) 1 = Some b.
Proof.
  intros Ha Hb.
  rewrite (split_comma_append a _ Ha), (split_comma_append b _ Hb).
  reflexivity.
Qed.

(** X2.  What is transmitted of the source string is its second
    comma-separated piece.  A source without a comma is sent all the
    same, with undefined data in place of the image; of a source with
    more commas only the piece between the first two is sent. *)
Theorem generateAIImage_sends_second_piece
    (key : option string) (sdk : string -> GenerateContentParameters -> sdk_result)
    (prompt : string) (aspectRatio : AspectRatio) :
  (forall source,
     comma_free source = true ->
     network_calls (trace (generateAIImage key sdk source prompt aspectRatio)) =
       (if truthy_opt_string key then [build_request source prompt aspectRatio]
        else []) /\
     transmitted_data (build_request source prompt aspectRatio) = [None]) /\
  (forall header payload,
     comma_free header = true -> comma_free payload = true ->
     Forall (fun request => transmitted_data request = [Some payload])
       (network_calls
          (trace (generateAIImage key sdk (header +:+ "," +:+ payload)
                    prompt aspectRatio)))) /\
  (forall header payload rest,
     comma_free header = true -> comma_free payload = true ->
     Forall (fun request => transmitted_data request = [Some payload])
       (network_calls
          (trace (generateAIImage key sdk
                    (header +:+ "," +:+ payload +:+ "," +:+ rest)
                    prompt aspectRatio)))).
Proof.
  split; [|split].
  - intros source Hs. split; [apply network_calls_of_generateAIImage|].
    unfold transmitted_data, build_request.
    cbn [parts contents flat_map inlineData data app].
    rewrite (split_comma_free source Hs). reflexivity.
  - intros header payload Hh Hp. rewrite network_calls_of_generateAIImage.
    destruct (truthy_opt_string key); constructor; [|constructor].
    unfold transmitted_data, build_request.
    cbn [parts contents flat_map inlineData data app].
    rewrite (data_url_payload header payload Hh Hp). reflexivity.
  - intros header payload rest Hh Hp. rewrite network_calls_of_generateAIImage.
    destruct (truthy_opt_string key); constructor; [|constructor].
    unfold transmitted_data, build_request.
    cbn [parts contents flat_map inlineData data app].
    rewrite (split_comma_second header payload rest Hh Hp). reflexivity.
Qed.

End GeminiEffects.

(** ** Capture engine: a countdown that completes, a page without video *)

Section CountdownCompletes.

Import Camera.

Context {N : Type} {num : Number N}.

Variable encode_base64 : string -> Q -> HTMLCanvasElement N -> string.

Lemma filter_fresh_handle (l : list Interval) (h : nat) :
  Forall (fun i => (handle i < h)%nat) l ->
  List.filter (fun i => negb (Nat.eqb (handle i) h)) l = l.
Proof.
  induction l as [|i l IH]; intros Hf; simpl; [reflexivity|].
  apply Forall_cons_iff in Hf. destruct Hf as [Hi Hl].
  replace (Nat.eqb (handle i) h) with false
    by (symmetry; apply Nat.eqb_neq; lia).
  simpl. rewrite (IH Hl). reflexivity.
Qed.

Lemma find_fresh_handle (l : list Interval) (h : nat) :
  Forall (fun i => (handle i < h)%nat) l ->
  find (fun i => Nat.eqb (handle i) h) l = None.
Proof.
  induction l as [|i l IH]; intros Hf; simpl; [reflexivity|].
  apply Forall_cons_iff in Hf. destruct Hf as [Hi Hl].
  replace (Nat.eqb (handle i) h) with false
    by (symmetry; apply Nat.eqb_neq; lia).
  apply IH. exact Hl.
Qed.

(** X3.  A countdown that is left to run: the third tick of its timer takes
    exactly one frame.  With the video element and the canvas mounted
    (whether or not a stream was ever granted), after [startCountdown], two
    ticks, any presses of BACK and the third tick: the canvas has the
    target size of the orientation at the press of the shutter; the props
    were called with the BACKs, then [onCapture] with the JPEG data URL of
    that canvas, then [onGenerate], and nothing else; the counter is null,
    the timer is gone (the timers armed before are as they were), the
    stream is untouched, and a further tick of the timer does nothing. *)
Theorem countdown_ends_with_one_frame
    (s : State N) (video : HTMLVideoElement) (canvas : HTMLCanvasElement N)
    (es : list event) :
  handles_fresh s ->
  videoRef s = Some video ->
  canvasRef s = Some canvas ->
  has_2d_context canvas = true ->
  Forall (fun e => e = ClickBack \/ e = Tick (next_handle s)) es ->
  count_ticks (next_handle s) es = 2%nat ->
  let s' := run encode_base64 (startCountdown s) (es ++ [Tick (next_handle s)]) in
  exists canvas',
    canvasRef s' = Some canvas' /\
    width canvas' = targetWidth (orientation s) /\
    height canvas' = targetHeight (orientation s) /\
    calls s' =
      calls s ++ repeat onBack (count_backs es) ++
      [onCapture (toDataURL encode_base64 "image/jpeg" (85 # 100) canvas');
       onGenerate] /\
    countdown s' = None /\
    intervals s' = intervals s /\
    live s' = live s /\ stream s' = stream s /\
    step encode_base64 s' (Tick (next_handle s)) = s'.
Proof.
  intros Hfresh Hv Hc Hctx Hall Hticks. cbv zeta.
  assert (Hlt : (count_ticks (next_handle s) es < 3)%nat) by lia.
  destruct (counting_invariant encode_base64 s es Hfresh Hall Hlt)
    as (Hi & Hcd & Hci & Hl & Hst & Hvr & Hcr & Hcalls).
  rewrite run_snoc.
  set (s2 := run encode_base64 (startCountdown s) es) in *.
  set (timer := {| handle := next_handle s;
                   closure_orientation := orientation s |}) in *.
  assert (Hf : find_interval (next_handle s) s2 = Some timer).
  { unfold find_interval. rewrite Hi.
    apply (find_interval_fresh s timer Hfresh eq_refl). }
  rewrite Hticks in Hcd.
  rewrite (tick_at_one encode_base64 s2 _ timer Hf Hcd).
  unfold run_capture. cbn [videoRef canvasRef clearInterval handle timer].
  rewrite Hvr, Hcr, Hv, Hc. unfold capture. rewrite Hctx.
  destruct (source_rect video (closure_orientation timer)) as [[[x y] w] h].
  eexists. cbn [canvasRef set_countdown calls countdown intervals live stream
                width height clearInterval closure_orientation timer].
  rewrite Hi, Hcalls, Hl, Hst, <- app_assoc.
  rewrite List.filter_app, (filter_fresh_handle _ _ Hfresh). simpl.
  rewrite Nat.eqb_refl. simpl. rewrite app_nil_r.
  repeat split; try reflexivity.
  unfold find_interval, set_countdown. cbn [intervals].
  rewrite (find_fresh_handle _ _ Hfresh). reflexivity.
Qed.

(** X4.  Where no video element is mounted (a captured image is shown instead,
    or the page has been unmounted) nothing that can happen makes the page
    pass a frame to [onCapture] or call [onGenerate]: the only prop it can
    still call is [onBack].  This holds with timers still armed. *)
Theorem no_video_no_frame (s : State N) (es : list event) :
  videoRef s = None ->
  videoRef (run encode_base64 s es) = None /\
  exists n, calls (run encode_base64 s es) = calls s ++ repeat onBack n.
Proof.
  revert s. induction es as [|e es IH]; intros s Hv; simpl.
  - split; [exact Hv|]. exists 0%nat. simpl. symmetry. apply app_nil_r.
  - assert (Hstep : videoRef (step encode_base64 s e) = None /\
                    exists k, calls (step encode_base64 s e) =
                              calls s ++ repeat onBack k).
    { destruct e as [m w h| | | |h|o|]; simpl.
      - rewrite Hv. split; [reflexivity|]. exists 0%nat. simpl.
        symmetry. apply app_nil_r.
      - split; [exact Hv|]. exists 0%nat. symmetry. apply app_nil_r.
      - split; [exact Hv|]. exists 0%nat. symmetry. apply app_nil_r.
      - split; [exact Hv|]. exists 1%nat. reflexivity.
      - destruct (find_interval h s) as [i|].
        + unfold interval_callback.
          destruct (countdown s) as [[|[p|p|]|p]|]; simpl;
            try (split; [exact Hv|]; exists 0%nat; symmetry; apply app_nil_r).
          unfold run_capture. simpl. rewrite Hv. simpl.
          split; [reflexivity|]. exists 0%nat. reflexivity.
        + split; [exact Hv|]. exists 0%nat. symmetry. apply app_nil_r.
      - destruct (Bool.eqb (isPortrait o) (isPortrait (orientation s))); simpl;
          (split; [exact Hv|]; exists 0%nat; symmetry; apply app_nil_r).
      - split; [reflexivity|]. exists 0%nat. symmetry. apply app_nil_r. }
    destruct Hstep as [Hv' [k Hk]].
    destruct (IH (step encode_base64 s e) Hv') as [Hv'' [n Hn]].
    split; [exact Hv''|]. exists (k + n)%nat.
    rewrite Hn, Hk, <- app_assoc, repeat_app. reflexivity.
Qed.

End CountdownCompletes.

(** ** Admin page: the cached base URL *)

Section AdminBaseUrl.

Import Admin.

(** X6.  The base URL written by [handleSaveSettings] is the one the page
    shows when it is mounted again, whether or not the remote save
    succeeded; an empty one, or a store without the key, gives the default
    URL instead. *)
Theorem saved_base_url_is_read_back
    (DEFAULT_GAS_URL : string) (settings : PhotoboothSettings)
    (concepts : list Concept) (ok : bool) (w : World) :
  gasUrl (page (mount DEFAULT_GAS_URL settings concepts
                  (localStorage (handleSaveSettings settings ok w)))) =
    (if truthy_string (gasUrl (page w)) then gasUrl (page w)
     else DEFAULT_GAS_URL) /\
  (forall storage : gmap string string,
     storage !! APPS_SCRIPT_BASE_URL = None ->
     gasUrl (page (mount DEFAULT_GAS_URL settings concepts storage)) =
       DEFAULT_GAS_URL).
Proof.
  split.
  - unfold mount, handleSaveSettings. cbn [localStorage page gasUrl].
    rewrite lookup_insert_eq. reflexivity.
  - intros storage Hnone. unfold mount. cbn [page gasUrl].
    rewrite Hnone. reflexivity.
Qed.

End AdminBaseUrl.

(** ** Admin page: the PIN gate *)

Section AdminGate.

Import AdminUI.

Variable settings : Admin.PhotoboothSettings.

Lemma forallb_snoc {A} (f : A -> bool) (l : list A) (x : A) :
  forallb f l = true -> f x = true -> forallb f (l ++ [x]) = true.
Proof.
  intros Hl Hx. rewrite forallb_app, Hl. simpl. rewrite Hx. reflexivity.
Qed.

Lemma gate_holds_step
    (concepts : list Admin.Concept) (storage : gmap string string)
    (s : Session) (e : event) :
  Admin.adminPin settings <> "" ->
  behind_gate settings concepts storage s ->
  Admin.pin (page s) <> Admin.adminPin settings ->
  e <> TypePin (Admin.adminPin settings) ->
  behind_gate settings concepts storage (step settings s e) /\
  Admin.pin (page (step settings s e)) <> Admin.adminPin settings.
Proof.
  intros Hne (Hauth & Hls & Hlc & Hst & Hup & Heff) Hpin He.
  unfold behind_gate.
  destruct e; simpl; rewrite ?Hauth, ?Hup; simpl; auto 10.
  - repeat split; auto. congruence.
  - unfold run_handler, Admin.handleLogin. simpl.
    destruct (String.eqb_spec (Admin.pin (page s)) (Admin.adminPin settings))
      as [Heq|_]; [contradiction|]. simpl.
    repeat split; auto; try congruence.
    apply forallb_snoc; [exact Heff|reflexivity].
  - repeat split; auto. apply forallb_snoc; [exact Heff|reflexivity].
Qed.

(** X7.  As long as the configured PIN (not empty) is not typed into the PIN
    field, nothing that is done on the page gets past the login view:
    the page stays unauthenticated, the settings and concepts it holds
    stay those of the props, [localStorage] is not written, no upload is
    started, and no call leaves the page other than alerts and [onBack]. *)
Theorem wrong_pin_changes_nothing
    (DEFAULT_GAS_URL : string) (concepts : list Admin.Concept)
    (storage : gmap string string) (es : list event) :
  Admin.adminPin settings <> "" ->
  Forall (fun e => e <> TypePin (Admin.adminPin settings)) es ->
  behind_gate settings concepts storage
    (run settings (mount DEFAULT_GAS_URL settings concepts storage) es).
Proof.
  intros Hne Hes.
  assert (Hgen : forall s,
            behind_gate settings concepts storage s ->
            Admin.pin (page s) <> Admin.adminPin settings ->
            behind_gate settings concepts storage (run settings s es)).
  { induction es as [|e es' IH]; intros s Hg Hp; simpl; [exact Hg|].
    apply Forall_cons_iff in Hes. destruct Hes as [He Hes'].
    destruct (gate_holds_step concepts storage s e Hne Hg Hp He) as [Hg' Hp'].
    apply (IH Hes' _ Hg' Hp'). }
  apply Hgen.
  - unfold behind_gate, mount. simpl. repeat split.
  - unfold mount. simpl. congruence.
Qed.

(** X8.  With an empty configured PIN the gate is open: on a newly mounted
    page one press of AUTHORIZE authenticates, without an alert; and
    whatever is typed first, two presses do. *)
Theorem empty_pin_admits_anyone
    (DEFAULT_GAS_URL : string) (concepts : list Admin.Concept)
    (storage : gmap string string) :
  Admin.adminPin settings = "" ->
  (Admin.isAuthenticated
     (page (run settings (mount DEFAULT_GAS_URL settings concepts storage)
              [PressAuthorize])) = true /\
   effects (run settings (mount DEFAULT_GAS_URL settings concepts storage)
              [PressAuthorize]) = []) /\
  (forall typed,
     Admin.isAuthenticated
       (page (run settings (mount DEFAULT_GAS_URL settings concepts storage)
                [TypePin typed; PressAuthorize; PressAuthorize])) = true).
Proof.
  intros Hempty. split.
  - unfold run, mount. simpl. unfold run_handler, Admin.handleLogin. simpl.
    rewrite Hempty. simpl. split; reflexivity.
  - intros typed. unfold run, mount. simpl.
    unfold run_handler, Admin.handleLogin. simpl. rewrite Hempty.
    destruct (String.eqb typed "") eqn:Ht; simpl.
    + reflexivity.
    + unfold run_handler, Admin.handleLogin. simpl. reflexivity.
Qed.

Lemma pin_kept_step (s : Session) (e : event) :
  Admin.pin (page s) = Admin.adminPin settings ->
  (forall p, e <> TypePin p) ->
  Admin.pin (page (step settings s e)) = Admin.adminPin settings.
Proof.
  intros Hpin He.
  destruct e; simpl;
    try (destruct (Admin.isAuthenticated (page s)); simpl;
         try destruct (on_settings_tab (page s)); simpl;
         try destruct (Admin.isUploading (page s)); simpl; exact Hpin).
  - exfalso. exact (He p eq_refl).
  - destruct (Admin.isAuthenticated (page s)); [exact Hpin|].
    unfold run_handler, Admin.handleLogin. simpl. rewrite Hpin.
    rewrite String.eqb_refl. simpl. exact Hpin.
  - destruct (Admin.isAuthenticated (page s)); simpl;
      try destruct (on_settings_tab (page s)); simpl;
      try destruct (Admin.isUploading (page s)); simpl;
      try destruct file; exact Hpin.
  - destruct (upload s); exact Hpin.
  - destruct (upload s); try exact Hpin. destruct ok; exact Hpin.
Qed.

(** X9.  A successful login does not clear the PIN field, and nothing but
    typing changes it.  Once the right PIN is in the field it is still
    there after logging in, working in the admin view and disconnecting
    (settings not committed in between), so that AUTHORIZE authenticates
    again without the PIN being typed. *)
Theorem pin_stays_in_the_field (s : Session) (es : list event) :
  Admin.pin (page s) = Admin.adminPin settings ->
  Forall (fun e => (forall p, e <> TypePin p) /\ e <> PressSaveSettings true) es ->
  Admin.pin (page (run settings s es)) = Admin.adminPin settings /\
  Admin.isAuthenticated
    (page (step settings (run settings s es) PressAuthorize)) = true.
Proof.
  intros Hpin Hes.
  assert (Hkept : Admin.pin (page (run settings s es)) = Admin.adminPin settings).
  { revert s Hpin. induction es as [|e es' IH]; intros s Hpin; simpl; auto.
    apply Forall_cons_iff in Hes. destruct Hes as [[He _] Hes'].
    apply (IH Hes'). apply pin_kept_step; assumption. }
  split; [exact Hkept|]. simpl.
  destruct (Admin.isAuthenticated (page (run settings s es))) eqn:Ha;
    [exact Ha|].
  unfold run_handler, Admin.handleLogin. simpl. rewrite Hkept.
  rewrite String.eqb_refl. reflexivity.
Qed.

End AdminGate.

(** ** Admin page: the overlay upload *)

Section AdminUpload.

Import AdminUI.

Variable settings : Admin.PhotoboothSettings.




End AdminUpload.

(** ** Admin page: concept objects shared with the application *)

Section ConceptAliasing.

Import ConceptStore.

Lemma arrays_kept (s : State) (es : list event) :
  concepts (run s es) = concepts s /\
  localConcepts (run s es) = localConcepts s.
Proof.
  revert s. induction es as [|e es IH]; intros s; simpl; [auto|].
  destruct (IH (step s e)) as [Hc Hl]. rewrite Hc, Hl.
  destruct e as [f i v|ok]; simpl; [|auto].
  unfold edit. destruct (localConcepts s !! i); auto.
Qed.

Lemma only_syncs_commit (s : State) (es : list event) :
  Forall (fun e => e <> Sync true) es ->
  synced (run s es) = synced s.
Proof.
  revert s. induction es as [|e es IH]; intros s Hes; simpl; [reflexivity|].
  apply Forall_cons_iff in Hes. destruct Hes as [He Hes].
  rewrite (IH _ Hes). destruct e as [f i v|[|]]; simpl; try reflexivity.
  - unfold edit. destruct (localConcepts s !! i); reflexivity.
  - congruence.
Qed.

(** X11.  The concept editors write into the objects the application's own
    array refers to.  After any editing and syncing since the page was
    mounted, an edit of a field of the concept at an index shows at once
    in the array of the [concepts] prop, at that index, with
    [onSaveConcepts] not called for it; concepts held by other references
    are not changed; and the state cell and the prop show the same
    concepts throughout. *)
Theorem concept_edit_shows_in_prop
    (store : gmap nat Admin.Concept) (prop : list nat) (es : list event)
    (f : field) (index : nat) (v : string) (r : nat) (c : Admin.Concept) :
  prop !! index = Some r ->
  objects (run (mount store prop) es) !! r = Some c ->
  let s := run (mount store prop) es in
  let s' := edit f index v s in
  shown s' (concepts s') !! index = Some (Some (write f v c)) /\
  read_field f (write f v c) = v /\
  synced s' = synced s /\
  (forall r', r' <> r -> objects s' !! r' = objects s !! r') /\
  shown s' (concepts s') = shown s' (localConcepts s') /\
  (Forall (fun e => e <> Sync true) es -> synced s' = []).
Proof.
  intros Hi Hr. cbv zeta.
  destruct (arrays_kept (mount store prop) es) as [Hc Hl].
  simpl in Hc, Hl.
  set (s := run (mount store prop) es) in *.
  unfold edit. rewrite Hl, Hi. unfold shown. cbn [objects concepts localConcepts synced].
  rewrite Hc. repeat split.
  - rewrite list_lookup_fmap, Hi. simpl. f_equal.
    rewrite lookup_alter_eq, Hr. reflexivity.
  - destruct f; reflexivity.
  - intros r' Hne. apply lookup_alter_ne. congruence.
  - intros Hes. unfold s. rewrite (only_syncs_commit _ _ Hes). reflexivity.
Qed.

End ConceptAliasing.

(** ** Instances of the further properties *)

Section CameraInstances.

Import Camera.

(** A countdown on the sample page, BACK pressed once on the way. *)
Lemma countdown_ends_with_one_frame_witness :
  let s := Samples.ready_page in
  let es := [Tick 0; ClickBack; Tick 0] in
  (handles_fresh s /\
   videoRef s = Some Samples.webcam /\
   canvasRef s = Some Samples.blank_canvas /\
   count_ticks (next_handle s) es = 2%nat) /\
  let s' := run Samples.fixed_encoder (startCountdown s)
              (es ++ [Tick (next_handle s)]) in
  exists canvas',
    canvasRef s' = Some canvas' /\
    width canvas' = targetWidth (orientation s) /\
    height canvas' = targetHeight (orientation s) /\
    calls s' =
      calls s ++ repeat onBack (count_backs es) ++
      [onCapture (toDataURL Samples.fixed_encoder "image/jpeg" (85 # 100) canvas');
       onGenerate] /\
    countdown s' = None /\
    intervals s' = intervals s /\
    live s' = live s /\ stream s' = stream s /\
    step Samples.fixed_encoder s' (Tick (next_handle s)) = s'.
Proof.
  assert (H1 : handles_fresh Samples.ready_page) by constructor.
  assert (H2 : Forall (fun e => e = ClickBack \/
                                e = Tick (next_handle Samples.ready_page))
                 [Tick 0; ClickBack; Tick 0])
    by (repeat constructor; auto).
  exact (conj (conj H1 (conj eq_refl (conj eq_refl eq_refl)))
           (countdown_ends_with_one_frame Samples.fixed_encoder
              Samples.ready_page Samples.webcam Samples.blank_canvas
              [Tick 0; ClickBack; Tick 0]
              H1 eq_refl eq_refl eq_refl H2 eq_refl)).
Defined.

(** The page left during a countdown: the three ticks that follow. *)
Lemma no_video_no_frame_witness :
  videoRef MoreSamples.left_while_counting = None /\
  videoRef (run Samples.fixed_encoder MoreSamples.left_while_counting
              [Tick 0; Tick 0; Tick 0]) = None /\
  exists n,
    calls (run Samples.fixed_encoder MoreSamples.left_while_counting
             [Tick 0; Tick 0; Tick 0]) =
    calls MoreSamples.left_while_counting ++ repeat onBack n.
Proof.
  exact (conj eq_refl
           (no_video_no_frame Samples.fixed_encoder
              MoreSamples.left_while_counting [Tick 0; Tick 0; Tick 0]
              eq_refl)).
Defined.

End CameraInstances.

Section AdminInstances.

Import AdminUI.

(** Three wrong PINs, BACK, and attempts at everything else. *)
Lemma wrong_pin_changes_nothing_witness :
  let es := [TypePin "0000"; PressAuthorize; PressSaveSettings true;
             TypePin "4321"; PressAuthorize; EditAdminPin "0000";
             ChooseOverlayFile (Some "data:image/png;base64,iVBORw0KGgo");
             PressSyncConcepts true; TypePin "123"; PressAuthorize;
             PressBack] in
  Admin.adminPin Samples.kiosk_settings <> "" /\
  Forall (fun e => e <> TypePin (Admin.adminPin Samples.kiosk_settings)) es /\
  behind_gate Samples.kiosk_settings [MoreSamples.neon] ∅
    (run Samples.kiosk_settings
       (mount "https://script.google.com/macros/s/default/exec"
          Samples.kiosk_settings [MoreSamples.neon] ∅) es).
Proof.
  assert (H1 : Admin.adminPin Samples.kiosk_settings <> "") by discriminate.
  assert (H2 : Forall (fun e => e <> TypePin (Admin.adminPin Samples.kiosk_settings))
                 [TypePin "0000"; PressAuthorize; PressSaveSettings true;
                  TypePin "4321"; PressAuthorize; EditAdminPin "0000";
                  ChooseOverlayFile (Some "data:image/png;base64,iVBORw0KGgo");
                  PressSyncConcepts true; TypePin "123"; PressAuthorize;
                  PressBack])
    by (repeat constructor; discriminate).
  exact (conj H1 (conj H2
           (wrong_pin_changes_nothing Samples.kiosk_settings
              "https://script.google.com/macros/s/default/exec"
              [MoreSamples.neon] ∅ _ H1 H2))).
Defined.

(** A kiosk configured with an empty PIN. *)
Lemma empty_pin_admits_anyone_witness :
  Admin.adminPin MoreSamples.open_settings = "" /\
  (Admin.isAuthenticated
     (page (run MoreSamples.open_settings
              (mount "" MoreSamples.open_settings [] ∅)
              [PressAuthorize])) = true /\
   effects (run MoreSamples.open_settings
              (mount "" MoreSamples.open_settings [] ∅)
              [PressAuthorize]) = []) /\
  (forall typed,
     Admin.isAuthenticated
       (page (run MoreSamples.open_settings
                (mount "" MoreSamples.open_settings [] ∅)
                [TypePin typed; PressAuthorize; PressAuthorize])) = true).
Proof.
  exact (conj eq_refl
           (empty_pin_admits_anyone MoreSamples.open_settings "" [] ∅ eq_refl)).
Defined.

(** Logged in, a field edited, a failed save, disconnected. *)
Lemma pin_stays_in_the_field_witness :
  let s := run Samples.kiosk_settings
             (mount "" Samples.kiosk_settings [] ∅) [TypePin "1234"] in
  let es := [PressAuthorize; EditEventName "Gala"; PressSaveSettings false;
             PressDisconnect] in
  Admin.pin (page s) = Admin.adminPin Samples.kiosk_settings /\
  Admin.isAuthenticated (page (run Samples.kiosk_settings s es)) = false /\
  Admin.pin (page (run Samples.kiosk_settings s es)) =
    Admin.adminPin Samples.kiosk_settings /\
  Admin.isAuthenticated
    (page (step Samples.kiosk_settings (run Samples.kiosk_settings s es)
             PressAuthorize)) = true.
Proof.
  assert (H : Forall (fun e => (forall p, e <> TypePin p) /\
                               e <> PressSaveSettings true)
                [PressAuthorize; EditEventName "Gala"; PressSaveSettings false;
                 PressDisconnect])
    by (repeat constructor; discriminate).
  exact (conj eq_refl (conj eq_refl
           (pin_stays_in_the_field Samples.kiosk_settings
              (run Samples.kiosk_settings
                 (mount "" Samples.kiosk_settings [] ∅) [TypePin "1234"])
              _ eq_refl H))).
Defined.


End AdminInstances.

Section ConceptInstances.

Import ConceptStore.

(** The second concept renamed after the prompt of the first was edited. *)
Lemma concept_edit_shows_in_prop_witness :
  let s := run (mount MoreSamples.two_concepts [0%nat; 1%nat])
             [Edit prompt_field 0 "neon skyline"] in
  let s' := edit name_field 1 "Sepia" s in
  ([0%nat; 1%nat] !! 1%nat = Some 1%nat /\
   objects s !! 1%nat = Some MoreSamples.retro) /\
  shown s' (concepts s') !! 1%nat =
    Some (Some (write name_field "Sepia" MoreSamples.retro)) /\
  read_field name_field (write name_field "Sepia" MoreSamples.retro) = "Sepia" /\
  synced s' = synced s /\
  (forall r', r' <> 1%nat -> objects s' !! r' = objects s !! r') /\
  shown s' (concepts s') = shown s' (localConcepts s') /\
  (Forall (fun e => e <> Sync true) [Edit prompt_field 0 "neon skyline"] ->
   synced s' = []).
Proof.
  assert (H : objects (run (mount MoreSamples.two_concepts [0%nat; 1%nat])
                         [Edit prompt_field 0 "neon skyline"]) !! 1%nat =
              Some MoreSamples.retro) by (vm_compute; reflexivity).
  exact (conj (conj eq_refl H)
           (concept_edit_shows_in_prop MoreSamples.two_concepts [0%nat; 1%nat]
              [Edit prompt_field 0 "neon skyline"] name_field 1 "Sepia"
              1%nat MoreSamples.retro eq_refl H)).
Defined.

End ConceptInstances.

Section StreamInstance.

Import Camera.

(** A page used for one capture and then left. *)
Lemma granted_streams_stay_live_witness :
  let es := [GetUserMediaResolves 0 1920 1080; ClickShutter;
             Tick 0; Tick 0; Tick 0; Unmount] in
  forallb (fun e => negb (is_orientation_change e)) es = true /\
  In 0%nat (granted es) /\
  In 0%nat (live (run Samples.fixed_encoder (mount portrait None) es)).
Proof.
  assert (H : In 0%nat (granted [GetUserMediaResolves 0 1920 1080; ClickShutter;
                                  Tick 0; Tick 0; Tick 0; Unmount]))
    by (left; reflexivity).
  exact (conj eq_refl (conj H
           (granted_streams_stay_live Samples.fixed_encoder portrait None
              [GetUserMediaResolves 0 1920 1080; ClickShutter;
               Tick 0; Tick 0; Tick 0; Unmount] 0%nat eq_refl H))).
Defined.

End StreamInstance.

(** ** Admin page: the uploading flag *)

Section AdminUploadingFlag.

Import AdminUI.

Variable settings : Admin.PhotoboothSettings.

Lemma upload_calls_app (l l' : list effect) :
  upload_calls (l ++ l') = (upload_calls l + upload_calls l')%nat.
Proof. unfold upload_calls. rewrite List.filter_app, length_app. reflexivity. Qed.

Lemma upload_answers_app (l l' : list effect) :
  upload_answers (l ++ l') = (upload_answers l + upload_answers l')%nat.
Proof. unfold upload_answers. rewrite List.filter_app, length_app. reflexivity. Qed.

(** The flag and the count of open upload calls, kept by every event.
    Choosing a file is where the disabled button matters: it is possible
    only with the flag false, so with no upload open. *)
Lemma uploading_flag_step (s : Session) (e : event) :
  Admin.isUploading (page s) =
    match upload s with Idle => false | _ => true end ->
  upload_calls (effects s) =
    (upload_answers (effects s) + awaited (upload s))%nat ->
  Admin.isUploading (page (step settings s e)) =
    match upload (step settings s e) with Idle => false | _ => true end /\
  upload_calls (effects (step settings s e)) =
    (upload_answers (effects (step settings s e)) +
     awaited (upload (step settings s e)))%nat.
Proof.
  intros Hflag Hcount.
  destruct e; simpl;
    try (destruct (Admin.isAuthenticated (page s)); simpl;
         try destruct (on_settings_tab (page s)); simpl;
         split; assumption).
  - destruct (Admin.isAuthenticated (page s)); [split; assumption|].
    unfold run_handler, Admin.handleLogin. simpl.
    destruct (String.eqb (Admin.pin (page s)) (Admin.adminPin settings));
      simpl; rewrite ?app_nil_r; (split; [exact Hflag|]); [exact Hcount|].
    rewrite upload_calls_app, upload_answers_app.
    unfold upload_calls, upload_answers in *. simpl. lia.
  - destruct (Admin.isAuthenticated (page s)); [split; assumption|]. simpl.
    split; [exact Hflag|].
    rewrite upload_calls_app, upload_answers_app.
    unfold upload_calls, upload_answers in *. simpl. lia.
  - destruct (Admin.isAuthenticated (page s)); simpl; [|split; assumption].
    destruct (on_settings_tab (page s)); simpl; [|split; assumption].
    unfold run_handler, Admin.handleSaveSettings. simpl.
    split; [exact Hflag|].
    destruct ok; simpl;
      rewrite ?map_app, !upload_calls_app, !upload_answers_app;
      unfold upload_calls, upload_answers in *; simpl; lia.
  - destruct (Admin.isAuthenticated (page s)); simpl; [|split; assumption].
    destruct (on_settings_tab (page s)); simpl; [|split; assumption].
    destruct (Admin.isUploading (page s)) eqn:Hu; simpl;
      [rewrite Hu; split; assumption|].
    destruct file as [f|]; simpl; [|rewrite Hu; split; assumption].
    split; [reflexivity|].
    destruct (upload s); try discriminate. exact Hcount.
  - destruct (upload s) eqn:Hup; try (rewrite Hup; split; assumption).
    simpl. split; [exact Hflag|].
    rewrite upload_calls_app, upload_answers_app.
    unfold upload_calls, upload_answers in *. simpl in *. lia.
  - destruct (upload s) eqn:Hup; try (rewrite Hup; split; assumption).
    simpl. split; [destruct ok; reflexivity|].
    rewrite upload_calls_app, upload_answers_app.
    unfold upload_calls, upload_answers in *.
    destruct ok; simpl in *; lia.
  - destruct (Admin.isAuthenticated (page s)); simpl; [|split; assumption].
    destruct (on_settings_tab (page s)); simpl; [split; assumption|].
    unfold run_handler, Admin.handleSyncConcepts. simpl.
    split; [exact Hflag|].
    destruct ok; simpl;
      rewrite ?map_app, !upload_calls_app, !upload_answers_app;
      unfold upload_calls, upload_answers in *; simpl; lia.
Qed.

(** X12.  At every moment since the admin page was mounted, whatever has
    been done on it (editing, saving, changing tab, disconnecting and
    logging in again, choosing files): [isUploading] is true exactly
    from the choice of an overlay file until the answer of its upload;
    and the upload calls made so far exceed the uploads closed by their
    alert by one while an upload is awaited and by none otherwise, so
    that at most one upload call is ever open. *)
Theorem uploading_flag_tracks_upload
    (DEFAULT_GAS_URL : string) (concepts : list Admin.Concept)
    (storage : gmap string string) (es : list event) :
  Admin.isUploading
    (page (run settings (mount DEFAULT_GAS_URL settings concepts storage) es)) =
  match upload (run settings (mount DEFAULT_GAS_URL settings concepts storage) es)
  with
  | Idle => false
  | Reading _ _ | Uploading _ => true
  end /\
  upload_calls
    (effects (run settings (mount DEFAULT_GAS_URL settings concepts storage) es)) =
  (upload_answers
     (effects (run settings (mount DEFAULT_GAS_URL settings concepts storage) es)) +
   awaited
     (upload (run settings (mount DEFAULT_GAS_URL settings concepts storage) es)))%nat /\
  (upload_calls
     (effects (run settings (mount DEFAULT_GAS_URL settings concepts storage) es)) <=
   upload_answers
     (effects (run settings (mount DEFAULT_GAS_URL settings concepts storage) es)) + 1)%nat.
Proof.
  assert (Hgen : forall s,
            Admin.isUploading (page s) =
              match upload s with Idle => false | _ => true end ->
            upload_calls (effects s) =
              (upload_answers (effects s) + awaited (upload s))%nat ->
            Admin.isUploading (page (run settings s es)) =
              match upload (run settings s es) with
              | Idle => false | _ => true end /\
            upload_calls (effects (run settings s es)) =
              (upload_answers (effects (run settings s es)) +
               awaited (upload (run settings s es)))%nat).
  { induction es as [|e es' IH]; intros s Hf Hc; simpl; [split; assumption|].
    destruct (uploading_flag_step s e Hf Hc) as [Hf' Hc'].
    apply (IH _ Hf' Hc'). }
  destruct (Hgen (mount DEFAULT_GAS_URL settings concepts storage)
              eq_refl eq_refl) as [Hf Hc].
  split; [exact Hf|]. split; [exact Hc|].
  rewrite Hc.
  destruct (upload (run settings
                      (mount DEFAULT_GAS_URL settings concepts storage) es));
    simpl; lia.
Qed.

End AdminUploadingFlag.
